(** * mm_streamlit.py: the March Madness data app

    A shallow embedding of the script [mm_streamlit.py], from its
    "Data cleaning" step on.  The script is straight-line Python over a
    pandas [DataFrame]; every rebinding of [mm_sub] is one definition
    here, and an exception that no statement catches is the [Raise]
    branch of the [result] type (the script has no [try]); what Streamlit
    then puts on the page is [streamlit_run].

    Numbers are IEEE binary64 values (Rocq's primitive floats), so that
    [!= 0], [> 2006], [np.linspace] and the Pearson correlation behave
    as they do in numpy: NaN compares unequal to everything, -0.0 equals
    0, and arithmetic rounds.

    The calls into pandas, numpy and plotly are embedded by what the
    library computes on the values at hand: pandas' indexing, comparison
    and [corr], numpy's [linspace], [round] and [astype], and the data
    that the plotly figures are built from. *)

From Stdlib Require Import ZArith List String Bool Lia Floats.
Import ListNotations.

Local Open Scope string_scope.
Local Open Scope Z_scope.

(** ** Python exceptions and the result of a statement *)

Inductive exn : Type :=
| KeyError (labels : list string)   (* a column label that is not in the frame *)
| TypeError                         (* '>' between a str and an int *)
| ValueError.                       (* a value that cannot be converted or aligned *)

Inductive result (A : Type) : Type :=
| Ok (a : A)
| Raise (e : exn).

Arguments Ok {A} a.
Arguments Raise {A} e.

Definition bind {A B : Type} (m : result A) (k : A -> result B) : result B :=
  match m with
  | Ok a => k a
  | Raise e => Raise e
  end.

Notation "x <- m ;; k" := (bind m (fun x => k))
  (at level 61, m at next level, right associativity).

(** [traverse f l] runs [f] on the elements of [l] from left to right and
    stops at the first exception, as an element-wise comparison of an
    object column does. *)
Fixpoint traverse {A B : Type} (f : A -> result B) (l : list A) : result (list B) :=
  match l with
  | [] => Ok []
  | x :: l' => y <- f x ;; ys <- traverse f l' ;; Ok (y :: ys)
  end.

(** ** Cells, series and frames *)

(** A cell of a frame read by [pd.read_csv]: an int64, a float64 (a
    missing value is the float NaN), a bool, or a str (in a column of
    dtype object). *)
Inductive cell : Type :=
| CInt (z : Z)
| CFloat (f : float)
| CBool (b : bool)
| CStr (s : string).

Definition NaN : cell := CFloat nan.

(** A frame is its column labels and its rows, each row holding one cell
    per column, in the order of the labels.  [read_csv] makes the labels
    of [mm] distinct; a row shorter than the labels reads as NaN in the
    columns it lacks. *)
Record DataFrame : Type := {
  columns : list string;
  rows : list (list cell)
}.

(** [Index.get_loc]: the position of a label. *)
Fixpoint get_loc (c : string) (cols : list string) : option nat :=
  match cols with
  | [] => None
  | c' :: cols' =>
      if String.eqb c' c then Some O
      else match get_loc c cols' with
           | Some i => Some (S i)
           | None => None
           end
  end.

Definition iat (r : list cell) (i : nat) : cell := nth i r NaN.

(** The cell of row [r] under the label [c], for a row laid out along [cols]. *)
Definition at_label (cols : list string) (r : list cell) (c : string) : cell :=
  match get_loc c cols with
  | Some i => iat r i
  | None => NaN
  end.

(** The values of the column at position [i], one per row. *)
Definition column_values (df : DataFrame) (i : nat) : list cell :=
  map (fun r => iat r i) (rows df).

(** [df[c]]: the column as a series, or [KeyError]. *)
Definition getitem (df : DataFrame) (c : string) : result (list cell) :=
  match get_loc c (columns df) with
  | Some i => Ok (column_values df i)
  | None => Raise (KeyError [c])
  end.

(** The labels of [want] that the frame does not have. *)
Definition not_in_index (cols want : list string) : list string :=
  filter (fun c => match get_loc c cols with Some _ => false | None => true end) want.

(** [df[[c1, ..., cn]]]: the projection to the listed columns, in the
    listed order, or [KeyError] with the labels that are missing. *)
Definition getitem_columns (df : DataFrame) (want : list string) : result DataFrame :=
  match not_in_index (columns df) want with
  | [] => Ok {| columns := want;
                rows := map (fun r => map (at_label (columns df) r) want) (rows df) |}
  | k :: ks => Raise (KeyError (k :: ks))
  end.

(** Selection of the entries of [l] whose flag in [mask] is set. *)
Fixpoint compress {A : Type} (mask : list bool) (l : list A) : list A :=
  match mask, l with
  | b :: mask', x :: l' => if b then x :: compress mask' l' else compress mask' l'
  | _, _ => []
  end.

(** [df[mask]]: boolean indexing with a mask that has one flag per row. *)
Definition getitem_mask (df : DataFrame) (mask : list bool) : DataFrame :=
  {| columns := columns df; rows := compress mask (rows df) |}.

(** [df.loc[mask, [c1, ..., cn]]]. *)
Definition loc (df : DataFrame) (mask : list bool) (want : list string) : result DataFrame :=
  t <- getitem_columns df want ;;
  Ok (getitem_mask t mask).

(** [m1 & m2] on two boolean series. *)
Fixpoint and_mask (m1 m2 : list bool) : list bool :=
  match m1, m2 with
  | a :: m1', b :: m2' => (a && b)%bool :: and_mask m1' m2'
  | _, _ => []
  end.

(** [df.rename(columns=mapper)]: only the labels change. *)
Fixpoint renamed (mapper : list (string * string)) (c : string) : string :=
  match mapper with
  | [] => c
  | (old, new) :: mapper' => if String.eqb old c then new else renamed mapper' c
  end.

Definition rename (mapper : list (string * string)) (df : DataFrame) : DataFrame :=
  {| columns := map (renamed mapper) (columns df); rows := rows df |}.

(** Writing [v] at position [i] of a row (a row that lacks the position
    is filled with NaN up to it). *)
Fixpoint put (i : nat) (v : cell) (r : list cell) : list cell :=
  match i, r with
  | O, [] => [v]
  | O, _ :: r' => v :: r'
  | S i', [] => NaN :: put i' v []
  | S i', x :: r' => x :: put i' v r'
  end.

Fixpoint put_column (i : nat) (vals : list cell) (rs : list (list cell)) : list (list cell) :=
  match vals, rs with
  | v :: vals', r :: rs' => put i v r :: put_column i vals' rs'
  | _, _ => []
  end.

(** [df[c] = vals]: the column is overwritten where the label exists and
    appended otherwise; a series of another length is a [ValueError]. *)
Definition setitem (df : DataFrame) (c : string) (vals : list cell) : result DataFrame :=
  if negb (Nat.eqb (List.length vals) (List.length (rows df))) then Raise ValueError
  else match get_loc c (columns df) with
       | Some i => Ok {| columns := columns df; rows := put_column i vals (rows df) |}
       | None => Ok {| columns := columns df ++ [c];
                       rows := put_column (List.length (columns df)) vals (rows df) |}
       end.

(** ** Element-wise comparisons *)

(** [x == v] for a str [v]: true only on the very same string. *)
Definition eq_str (v : string) (x : cell) : bool :=
  match x with
  | CStr s => String.eqb s v
  | _ => false
  end.

(** [x != 0]. *)
Definition ne_zero (x : cell) : bool :=
  match x with
  | CInt z => negb (z =? 0)
  | CFloat f => negb (PrimFloat.eqb f 0%float)
  | CBool b => b
  | CStr _ => true
  end.

(** The float nearest to an integer. *)
Definition float_of_Z (z : Z) : float :=
  SF2Prim (binary_normalize prec emax z 0 false).

(** [x > k] for an int [k]; a str cannot be ordered against an int. *)
Definition gt_int (k : Z) (x : cell) : result bool :=
  match x with
  | CInt z => Ok (k <? z)
  | CFloat f => Ok (PrimFloat.ltb (float_of_Z k) f)
  | CBool b => Ok (k <? Z.b2z b)
  | CStr _ => Raise TypeError
  end.

(** [pd.isna]. *)
Definition isna (x : cell) : bool :=
  match x with
  | CFloat f => PrimFloat.is_nan f
  | _ => false
  end.

(** ** Data cleaning (lines 24 to 41 and line 62) *)

(** The eleven columns the first selection asks for (line 26). *)
Definition loc_columns : list string :=
  ["Season"; "Mapped ESPN Team Name"; "Adjusted Offensive Efficiency";
   "Adjusted Defensive Efficiency"; "eFGPct"; "TOPct"; "AdjTempo"; "PGOR"; "PGDR";
   "Tournament Winner?"; "Post-Season Tournament"].

(** The ten columns that are kept (line 29). *)
Definition kept_columns : list string :=
  ["Season"; "Mapped ESPN Team Name"; "Adjusted Offensive Efficiency";
   "Adjusted Defensive Efficiency"; "eFGPct"; "TOPct"; "AdjTempo"; "PGOR"; "PGDR";
   "Post-Season Tournament"].

(** The short names (lines 34 to 39). *)
Definition short_names : list (string * string) :=
  [("Adjusted Offensive Efficiency", "AdjOE");
   ("Adjusted Defensive Efficiency", "AdjDE");
   ("Post-Season Tournament", "March Madness?");
   ("Mapped ESPN Team Name", "School")].

(** Line 25: [mm.loc[mm['Tournament Winner?'] == 'No', [...]]].  The mask
    is evaluated before [.loc] looks the columns up. *)
Definition mm_sub_loc (mm : DataFrame) : result DataFrame :=
  winner <- getitem mm "Tournament Winner?" ;;
  loc mm (map (eq_str "No") winner) loc_columns.

(** Line 29: the projection that drops 'Tournament Winner?'. *)
Definition mm_sub_kept (mm : DataFrame) : result DataFrame :=
  t <- mm_sub_loc mm ;;
  getitem_columns t kept_columns.

(** Line 32: rows with a zero eFGPct or a zero defensive efficiency go. *)
Definition mm_sub_played (mm : DataFrame) : result DataFrame :=
  t <- mm_sub_kept mm ;;
  efg <- getitem t "eFGPct" ;;
  ade <- getitem t "Adjusted Defensive Efficiency" ;;
  Ok (getitem_mask t (and_mask (map ne_zero efg) (map ne_zero ade))).

(** Lines 34 to 39: the renaming, in place. *)
Definition mm_sub_renamed (mm : DataFrame) : result DataFrame :=
  t <- mm_sub_played mm ;;
  Ok (rename short_names t).

(** [(s == 'March Madness').astype(int)]. *)
Definition march_madness (x : cell) : cell := CInt (Z.b2z (eq_str "March Madness" x)).

(** Line 41: the label column.  This is the frame the missing-values plot
    is drawn from. *)
Definition mm_sub_labelled (mm : DataFrame) : result DataFrame :=
  t <- mm_sub_renamed mm ;;
  tournament <- getitem t "March Madness?" ;;
  setitem t "March Madness?" (map march_madness tournament).

(** Line 62: [mm_sub[mm_sub['Season'] > 2006]].  This is the frame the
    heatmap, the histogram and the scatter plot are drawn from. *)
Definition mm_sub (mm : DataFrame) : result DataFrame :=
  t <- mm_sub_labelled mm ;;
  season <- getitem t "Season" ;;
  recent <- traverse (gt_int 2006) season ;;
  Ok (getitem_mask t recent).

(** ** Missing values plot (lines 46 to 57) *)

(** [df.isna().astype(int).to_numpy()]: one row per row of the frame and
    one entry per column. *)
Definition isna_array (df : DataFrame) : list (list Z) :=
  map (fun r => map (fun i => Z.b2z (isna (iat r i))) (seq 0 (List.length (columns df))))
      (rows df).

Definition nan_array (mm : DataFrame) : result (list (list Z)) :=
  t <- mm_sub_labelled mm ;;
  Ok (isna_array t).

(** [a.T] for an array with [k] columns. *)
Definition transpose (k : nat) (a : list (list Z)) : list (list Z) :=
  map (fun j => map (fun r => nth j r 0) a) (seq 0 k).

(** C's conversion of a double to a 64-bit integer: the fraction is cut
    off; on NaN and the infinities the hardware answers the least int64. *)
Definition astype_int (f : float) : Z :=
  match Prim2SF f with
  | S754_zero _ => 0
  | S754_finite s m e =>
      let a := if 0 <=? e then Z.shiftl (Zpos m) e else Z.shiftr (Zpos m) (- e) in
      if s then - a else a
  | _ => - 2 ^ 63
  end.

(** numpy's [linspace(start, stop, num)] with the end point included:
    [num] samples [i * step + start] for [step = (stop - start) / (num - 1)],
    the last one set to [stop]. *)
Definition linspace (start stop : float) (num : nat) : list float :=
  let div := (Z.of_nat num - 1)%Z in
  let delta := (stop - start)%float in
  let y := map (fun i => float_of_Z (Z.of_nat i)) (seq 0 num) in
  let y :=
    if 0 <? div then
      let step := (delta / float_of_Z div)%float in
      if PrimFloat.eqb step 0%float
      then map (fun v => (v / float_of_Z div * delta)%float) y
      else map (fun v => (v * step)%float) y
    else map (fun v => (v * delta)%float) y in
  let y := map (fun v => (v + start)%float) y in
  if (1 <? Z.of_nat num) then removelast y ++ [stop] else y.

(** Line 57: the tick positions of the x axis, for [num_mm] rows. *)
Definition xticks (num_mm : nat) : list Z :=
  map astype_int
      (linspace (float_of_Z 0) (float_of_Z (Z.of_nat num_mm - 1)) (Nat.min 10 num_mm)).

(** What the missing-values figure is given. *)
Record MissingPlot : Type := {
  image : list (list Z);          (* imshow(nan_array.T) *)
  yticks : list nat;              (* range(len(mm_sub.columns)) *)
  yticklabels : list string;      (* mm_sub.columns *)
  xtick_positions : list Z
}.

Definition missing_plot (mm : DataFrame) : result MissingPlot :=
  t <- mm_sub_labelled mm ;;
  let a := isna_array t in
  let num_mm := List.length a in
  Ok {| image := transpose (List.length (columns t)) a;
        yticks := seq 0 (List.length (columns t));
        yticklabels := columns t;
        xtick_positions := xticks num_mm |}.

(** ** Correlation heatmap (lines 81 to 84) *)

(** The running sums of Welford's method, which pandas' [nancorr], the
    loop behind [DataFrame.corr], keeps for one pair of columns. *)
Record welford : Type := {
  nobs : Z;
  meanx : float;
  meany : float;
  ssqdmx : float;
  ssqdmy : float;
  covxy : float
}.

Definition welford0 : welford :=
  {| nobs := 0; meanx := 0%float; meany := 0%float;
     ssqdmx := 0%float; ssqdmy := 0%float; covxy := 0%float |}.

(** One row of the pair: it counts only when both values are finite. *)
Definition observe (st : welford) (v : float * float) : welford :=
  let (vx, vy) := v in
  if (PrimFloat.is_finite vx && PrimFloat.is_finite vy)%bool then
    let n := nobs st + 1 in
    let dx := (vx - meanx st)%float in
    let dy := (vy - meany st)%float in
    let mx := (meanx st + 1 / float_of_Z n * dx)%float in
    let my := (meany st + 1 / float_of_Z n * dy)%float in
    {| nobs := n; meanx := mx; meany := my;
       ssqdmx := (ssqdmx st + (vx - mx) * dx)%float;
       ssqdmy := (ssqdmy st + (vy - my) * dy)%float;
       covxy := (covxy st + (vx - mx) * dy)%float |}
  else st.

(** The coefficient read off the sums: missing below [min_periods = 1]
    observations and when the divisor is zero, clipped to [-1, 1]. *)
Definition coefficient (st : welford) : float :=
  if nobs st <? 1 then nan
  else
    let divisor := PrimFloat.sqrt (ssqdmx st * ssqdmy st) in
    if negb (PrimFloat.eqb divisor 0%float) then
      let val := (covxy st / divisor)%float in
      if PrimFloat.ltb 1%float val then 1%float
      else if PrimFloat.ltb val (-1)%float then (-1)%float
      else val
    else nan.

Definition pearson (xs ys : list float) : float :=
  coefficient (fold_left observe (combine xs ys) welford0).

Definition float_column (mat : list (list float)) (j : nat) : list float :=
  map (fun r => nth j r nan) mat.

(** The matrix of coefficients of a [k]-column array: the loop computes
    the pair [(xi, yi)] for [yi <= xi] and stores it at [(xi, yi)] and
    at [(yi, xi)]. *)
Definition nancorr (k : nat) (mat : list (list float)) : list (list float) :=
  map (fun a =>
         map (fun b => pearson (float_column mat (Nat.max a b))
                               (float_column mat (Nat.min a b)))
             (seq 0 k))
      (seq 0 k).

(** [rint]: the nearest integer, ties to even. *)
Definition rint (x : float) : float :=
  let big := 4503599627370496%float in
  if PrimFloat.ltb (PrimFloat.abs x) big then
    let r := (PrimFloat.abs x + big - big)%float in
    if PrimFloat.get_sign x then (- r)%float else r
  else x.

(** [x.round(3)], as numpy computes it. *)
Definition round3 (x : float) : float := (rint (x * 1000) / 1000)%float.

Section Heatmap.

(** Python's [float(s)] on a str: the number it spells, if any. *)
Variable python_float : string -> option float.

(** A cell as a float64, as [to_numpy(dtype=float)] converts it. *)
Definition to_float (x : cell) : result float :=
  match x with
  | CInt z => Ok (float_of_Z z)
  | CFloat f => Ok f
  | CBool b => Ok (float_of_Z (Z.b2z b))
  | CStr s => match python_float s with
              | Some f => Ok f
              | None => Raise ValueError
              end
  end.

Definition to_numpy (df : DataFrame) : result (list (list float)) :=
  traverse (traverse to_float) (rows df).

(** [df.corr()] with its defaults (Pearson, [min_periods = 1]). *)
Definition corr (df : DataFrame) : result (list (list float)) :=
  mat <- to_numpy df ;;
  Ok (nancorr (List.length (columns df)) mat).

(** Lines 81 and 82. *)
Definition selected_features (t : DataFrame) : list string :=
  filter (fun f => existsb (String.eqb f) (columns t))
         ["eFGPct"; "TOPct"; "AdjTempo"; "AdjOE"; "AdjDE"; "PGOR"; "PGDR"; "March Madness?"].

(** Line 84: [mm_sub[selected_features].corr().round(3).values]. *)
Definition correlation_matrix (t : DataFrame) : result (list (list float)) :=
  sub <- getitem_columns t (selected_features t) ;;
  c <- corr sub ;;
  Ok (map (map round3) c).

End Heatmap.

(** The entry [(i, j)] of a matrix. *)
Definition entry (m : list (list float)) (i j : nat) : float := nth j (nth i m []) nan.

(** ** Histogram and scatter plot (lines 105 to 135) *)

Definition opts : list string :=
  ["AdjOE"; "AdjDE"; "eFGPct"; "TOPct"; "AdjTempo"; "PGOR"; "PGDR"; "March Madness?"].

(** What [px.histogram] is given: the values of one column, its [nbins]
    argument (the most bins plotly may draw) and the title. *)
Record Histogram : Type := {
  hist_x : list cell;
  hist_nbins : Z;
  hist_title : string
}.

(** [px.histogram(df, x=c, nbins=n, title=s)]; a name that is not a
    column of the frame is a [ValueError]. *)
Definition px_histogram (df : DataFrame) (x : string) (n : Z) (title : string)
  : result Histogram :=
  match get_loc x (columns df) with
  | Some i => Ok {| hist_x := column_values df i; hist_nbins := n; hist_title := title |}
  | None => Raise ValueError
  end.

(** Line 113. *)
Definition fig_hist (t : DataFrame) (plot_col : string) : result Histogram :=
  px_histogram t plot_col 30 ("Histogram of " ++ plot_col).

Record Scatter : Type := {
  scatter_x : list cell;
  scatter_y : list cell;
  scatter_color : list cell;
  scatter_hover : list (list cell);
  scatter_title : string
}.

(** [s.map({1: 'Made NCAA Tournament', 0: 'Did Not Qualify'})]. *)
Definition qualification (x : cell) : cell :=
  match x with
  | CInt 1 => CStr "Made NCAA Tournament"
  | CInt 0 => CStr "Did Not Qualify"
  | _ => NaN
  end.

(** Lines 124 to 135. *)
Definition fig_scatter (t : DataFrame) (x_sc y_sc : string) : result Scatter :=
  label <- getitem t "March Madness?" ;;
  match get_loc x_sc (columns t), get_loc y_sc (columns t) with
  | Some i, Some j =>
      hover <- getitem_columns t ["Season"; "School"] ;;
      Ok {| scatter_x := column_values t i;
            scatter_y := column_values t j;
            scatter_color := map qualification label;
            scatter_hover := rows hover;
            scatter_title := x_sc ++ " vs " ++ y_sc |}
  | _, _ => Raise ValueError
  end.

(** ** The script *)

(** The three dropdowns: each holds one of [opts]. *)
Record Selection : Type := {
  plot_col : string;
  x_sc : string;
  y_sc : string
}.

Record Page : Type := {
  page_missing : MissingPlot;
  page_heatmap : list (list float);
  page_hist : Histogram;
  page_scatter : Scatter
}.

(** One run of the script on the frame [mm] that [read_csv] returned.
    [Raise e] is the exception [e] leaving the script uncaught. *)
Definition app (python_float : string -> option float) (mm : DataFrame) (sel : Selection)
  : result Page :=
  plot <- missing_plot mm ;;
  t <- mm_sub mm ;;
  heat <- correlation_matrix python_float t ;;
  hist <- fig_hist t (plot_col sel) ;;
  scat <- fig_scatter t (x_sc sel) (y_sc sel) ;;
  Ok {| page_missing := plot; page_heatmap := heat;
        page_hist := hist; page_scatter := scat |}.

(** ** The page that Streamlit shows *)

(** What a run puts on the page: Streamlit executes the script from top
    to bottom, each [st] call adding an element below the ones before;
    when an exception leaves the script, Streamlit's script runner
    catches it and shows it on the page as an exception box, below what
    was drawn before it, and the rest of the script is not run.  The
    headings, the overview, the fixed text and the dropdowns themselves
    are left out here. *)
Inductive element : Type :=
| Pyplot (p : MissingPlot)                       (* st.pyplot(fig), line 59 *)
| HeatmapChart (z : list (list float)) (labels : list string)
                                                 (* st.plotly_chart(fig_heatmap), line 100 *)
| HistogramChart (h : Histogram)                 (* st.plotly_chart(fig_hist), line 114 *)
| ScatterChart (s : Scatter)                     (* st.plotly_chart(fig_scatter), line 137 *)
| ExceptionBox (e : exn).                        (* the uncaught exception, shown by Streamlit *)

(** One run under [streamlit run] (line 139), as the elements on the page.
    The statements are those of [app], in the same order. *)
Definition streamlit_run (python_float : string -> option float) (mm : DataFrame)
           (sel : Selection) : list element :=
  match missing_plot mm with
  | Raise e => [ExceptionBox e]
  | Ok plot =>
      Pyplot plot ::
      match mm_sub mm with
      | Raise e => [ExceptionBox e]
      | Ok t =>
          match correlation_matrix python_float t with
          | Raise e => [ExceptionBox e]
          | Ok heat =>
              HeatmapChart heat (selected_features t) ::
              match fig_hist t (plot_col sel) with
              | Raise e => [ExceptionBox e]
              | Ok hist =>
                  HistogramChart hist ::
                  match fig_scatter t (x_sc sel) (y_sc sel) with
                  | Raise e => [ExceptionBox e]
                  | Ok scat => [ScatterChart scat]
                  end
              end
          end
      end
  end.

(** ** What a raw row becomes *)

(** The three row tests of the cleaning, read on a raw row laid out along
    the labels [cols] of [mm], and the cleaned row it is turned into. *)
Definition not_winner (cols : list string) (r : list cell) : bool :=
  eq_str "No" (at_label cols r "Tournament Winner?").

Definition played (cols : list string) (r : list cell) : bool :=
  (ne_zero (at_label cols r "eFGPct")
   && ne_zero (at_label cols r "Adjusted Defensive Efficiency"))%bool.

Definition after_2006 (x : cell) : bool :=
  match gt_int 2006 x with
  | Ok b => b
  | Raise _ => false
  end.

Definition retained (cols : list string) (r : list cell) : bool :=
  (not_winner cols r && played cols r && after_2006 (at_label cols r "Season"))%bool.

Definition labelled_row (cols : list string) (r : list cell) : list cell :=
  [at_label cols r "Season"; at_label cols r "Mapped ESPN Team Name";
   at_label cols r "Adjusted Offensive Efficiency";
   at_label cols r "Adjusted Defensive Efficiency";
   at_label cols r "eFGPct"; at_label cols r "TOPct"; at_label cols r "AdjTempo";
   at_label cols r "PGOR"; at_label cols r "PGDR";
   march_madness (at_label cols r "Post-Season Tournament")].

Definition cleaned_columns : list string :=
  ["Season"; "School"; "AdjOE"; "AdjDE"; "eFGPct"; "TOPct"; "AdjTempo"; "PGOR"; "PGDR";
   "March Madness?"].

(** ** The running sums on a column that does not vary *)

(** The two zeros of binary64. *)
Definition zeroish (z : float) : Prop := z = 0%float \/ z = (-0)%float.

(** On a pair made of one column twice, the sums of [x] and of [y] agree. *)
Definition same_xy (st : welford) : Prop :=
  meany st = meanx st /\ ssqdmy st = ssqdmx st.

(** After the first observation of a column whose finite values all are
    [c]: the sum of squares is a zero and the mean is [c] (or a zero when
    [c] is one), unless a NaN has come in, which then stays. *)
Definition settled (c : float) (st : welford) : Prop :=
  ssqdmx st = nan
  \/ (zeroish (ssqdmx st) /\ (meanx st = c \/ (zeroish c /\ zeroish (meanx st)))).

(** ** A small raw table *)

Definition raw_example : DataFrame :=
  {| columns :=
       ["Season"; "Mapped ESPN Team Name"; "Mapped Conference Name";
        "Adjusted Offensive Efficiency"; "Adjusted Defensive Efficiency";
        "eFGPct"; "TOPct"; "AdjTempo"; "PGOR"; "PGDR";
        "Tournament Winner?"; "Post-Season Tournament"];
     rows :=
       [[CInt 2005; CStr "Alpha"; CStr "ACC"; CFloat 110.5; CFloat 95.25; CFloat 52.5;
         CFloat 18.5; CFloat 66.5; NaN; NaN; CStr "No"; CStr "March Madness"];
        [CInt 2010; CStr "Bravo"; CStr "SEC"; CFloat 104.25; CFloat 99.5; CFloat 49.75;
         CFloat 19.25; CFloat 68.5; CFloat 1.5; CFloat 2.25; CStr "No"; CStr "NIT"];
        [CInt 2021; CStr "Covid"; CStr "Ivy"; CFloat 0; CFloat 0; CFloat 0;
         CFloat 0; CFloat 0; NaN; NaN; CStr "No"; NaN];
        [CInt 2012; CStr "Delta"; CStr "B10"; CFloat 115.5; CFloat 90.25; CFloat 55.5;
         CFloat 16.75; CFloat 64.25; CFloat 3.5; CFloat 1.25; CStr "Yes";
         CStr "March Madness"];
        [CInt 2013; CStr "Echo"; CStr "B12"; CFloat 112.75; CFloat 93.5; CFloat 53.25;
         CFloat 17.5; CFloat 70.25; CFloat 2.75; CFloat 1.75; CStr "No";
         CStr "March Madness"];
        [CInt 2014; CStr "Fox"; CStr "P12"; CFloat 101.5; CFloat 101.25; CFloat 48.5;
         CFloat 20.25; CFloat 67.75; CFloat 0.5; CFloat 0.75; NaN; NaN];
        [CInt 2015; CStr "Golf"; CStr "WCC"; CFloat 108.5; CFloat 97.75; CFloat 51.5;
         CFloat 18.25; CFloat 65.75; CFloat 2.5; CFloat 1.5; CStr "No";
         CStr "March Madness"]] |}.

(** The table after the first selection alone. *)
Definition loc_example : DataFrame :=
  {| columns := loc_columns;
     rows :=
       [[CInt 2005; CStr "Alpha"; CFloat 110.5; CFloat 95.25; CFloat 52.5;
         CFloat 18.5; CFloat 66.5; NaN; NaN; CStr "No"; CStr "March Madness"];
        [CInt 2010; CStr "Bravo"; CFloat 104.25; CFloat 99.5; CFloat 49.75;
         CFloat 19.25; CFloat 68.5; CFloat 1.5; CFloat 2.25; CStr "No"; CStr "NIT"];
        [CInt 2021; CStr "Covid"; CFloat 0; CFloat 0; CFloat 0;
         CFloat 0; CFloat 0; NaN; NaN; CStr "No"; NaN];
        [CInt 2013; CStr "Echo"; CFloat 112.75; CFloat 93.5; CFloat 53.25;
         CFloat 17.5; CFloat 70.25; CFloat 2.75; CFloat 1.75; CStr "No";
         CStr "March Madness"];
        [CInt 2015; CStr "Golf"; CFloat 108.5; CFloat 97.75; CFloat 51.5;
         CFloat 18.25; CFloat 65.75; CFloat 2.5; CFloat 1.5; CStr "No";
         CStr "March Madness"]] |}.

(** The table when the cleaning is done. *)
Definition cleaned_example : DataFrame :=
  {| columns := cleaned_columns;
     rows :=
       [[CInt 2010; CStr "Bravo"; CFloat 104.25; CFloat 99.5; CFloat 49.75;
         CFloat 19.25; CFloat 68.5; CFloat 1.5; CFloat 2.25; CInt 0];
        [CInt 2013; CStr "Echo"; CFloat 112.75; CFloat 93.5; CFloat 53.25;
         CFloat 17.5; CFloat 70.25; CFloat 2.75; CFloat 1.75; CInt 1];
        [CInt 2015; CStr "Golf"; CFloat 108.5; CFloat 97.75; CFloat 51.5;
         CFloat 18.25; CFloat 65.75; CFloat 2.5; CFloat 1.5; CInt 1]] |}.

(** Its missing-values array and plot: four rows, the 2005 season first. *)
Definition nan_example : list (list Z) :=
  [[0; 0; 0; 0; 0; 0; 0; 1; 1; 0];
   [0; 0; 0; 0; 0; 0; 0; 0; 0; 0];
   [0; 0; 0; 0; 0; 0; 0; 0; 0; 0];
   [0; 0; 0; 0; 0; 0; 0; 0; 0; 0]].

Definition plot_example : MissingPlot :=
  {| image := [[0; 0; 0; 0]; [0; 0; 0; 0]; [0; 0; 0; 0]; [0; 0; 0; 0]; [0; 0; 0; 0];
               [0; 0; 0; 0]; [0; 0; 0; 0]; [1; 0; 0; 0]; [1; 0; 0; 0]; [0; 0; 0; 0]];
     yticks := seq 0 10;
     yticklabels := cleaned_columns;
     xtick_positions := [0; 1; 2; 3] |}.


(** A raw table of two teams that both went to the NIT. *)
Definition nit_example : DataFrame :=
  {| columns := loc_columns;
     rows :=
       [[CInt 2010; CStr "Bravo"; CFloat 104.25; CFloat 99.5; CFloat 49.75;
         CFloat 19.25; CFloat 68.5; CFloat 1.5; CFloat 2.25; CStr "No"; CStr "NIT"];
        [CInt 2015; CStr "Hotel"; CFloat 108.5; CFloat 97.75; CFloat 51.5;
         CFloat 18.25; CFloat 65.75; CFloat 2.5; CFloat 1.5; CStr "No"; CStr "NIT"]] |}.

Definition nit_cleaned : DataFrame :=
  {| columns := cleaned_columns;
     rows :=
       [[CInt 2010; CStr "Bravo"; CFloat 104.25; CFloat 99.5; CFloat 49.75;
         CFloat 19.25; CFloat 68.5; CFloat 1.5; CFloat 2.25; CInt 0];
        [CInt 2015; CStr "Hotel"; CFloat 108.5; CFloat 97.75; CFloat 51.5;
         CFloat 18.25; CFloat 65.75; CFloat 2.5; CFloat 1.5; CInt 0]] |}.

(** Its rounded correlation matrix: the label does not vary, so the last
    row and the last column are missing. *)
Definition nit_heatmap : list (list float) :=
  [[1; -1; -1; 1; -1; 1; -1; nan];
   [-1; 1; 1; -1; 1; -1; 1; nan];
   [-1; 1; 1; -1; 1; -1; 1; nan];
   [1; -1; -1; 1; -1; 1; -1; nan];
   [-1; 1; 1; -1; 1; -1; 1; nan];
   [1; -1; -1; 1; -1; 1; -1; nan];
   [-1; 1; 1; -1; 1; -1; 1; nan];
   [nan; nan; nan; nan; nan; nan; nan; nan]]%float.

Definition selection_example : Selection :=
  {| plot_col := "AdjTempo"; x_sc := "AdjOE"; y_sc := "AdjDE" |}.

(** A reading of strs as numbers that accepts none. *)
Definition no_float (s : string) : option float := None.

(** ** More raw tables *)

(** A raw table in which a team that passes the first two tests has a
    Season that is not a number. *)
Definition str_season_example : DataFrame :=
  {| columns := loc_columns;
     rows :=
       [[CInt 2010; CStr "Bravo"; CFloat 104.25; CFloat 99.5; CFloat 49.75;
         CFloat 19.25; CFloat 68.5; CFloat 1.5; CFloat 2.25; CStr "No"; CStr "NIT"];
        [CStr "2015-16"; CStr "India"; CFloat 108.5; CFloat 97.75; CFloat 51.5;
         CFloat 18.25; CFloat 65.75; CFloat 2.5; CFloat 1.5; CStr "No"; CStr "NIT"]] |}.

(** A raw table with a team whose eFGPct is missing. *)
Definition nan_efg_example : DataFrame :=
  {| columns := loc_columns;
     rows :=
       [[CInt 2010; CStr "Bravo"; CFloat 104.25; CFloat 99.5; CFloat 49.75;
         CFloat 19.25; CFloat 68.5; CFloat 1.5; CFloat 2.25; CStr "No"; CStr "NIT"];
        [CInt 2016; CStr "Juliett"; CFloat 108.5; CFloat 97.75; NaN;
         CFloat 18.25; CFloat 65.75; CFloat 2.5; CFloat 1.5; CStr "No";
         CStr "March Madness"]] |}.

Definition nan_efg_cleaned : DataFrame :=
  {| columns := cleaned_columns;
     rows :=
       [[CInt 2010; CStr "Bravo"; CFloat 104.25; CFloat 99.5; CFloat 49.75;
         CFloat 19.25; CFloat 68.5; CFloat 1.5; CFloat 2.25; CInt 0];
        [CInt 2016; CStr "Juliett"; CFloat 108.5; CFloat 97.75; NaN;
         CFloat 18.25; CFloat 65.75; CFloat 2.5; CFloat 1.5; CInt 1]] |}.

(** A raw table of seasons before 2007 only, and what is left of it. *)
Definition old_example : DataFrame :=
  {| columns := loc_columns;
     rows :=
       [[CInt 2005; CStr "Alpha"; CFloat 110.5; CFloat 95.25; CFloat 52.5;
         CFloat 18.5; CFloat 66.5; NaN; NaN; CStr "No"; CStr "March Madness"];
        [CInt 2006; CStr "Kilo"; CFloat 101.5; CFloat 99.25; CFloat 48.5;
         CFloat 20.5; CFloat 64.5; NaN; NaN; CStr "No"; CStr "NIT"]] |}.

Definition old_cleaned : DataFrame := {| columns := cleaned_columns; rows := [] |}.

(** The small raw table with its conference column left out and its
    columns in another order. *)
Definition reordered_example : DataFrame :=
  {| columns :=
       ["Post-Season Tournament"; "Tournament Winner?"; "Season";
        "Mapped ESPN Team Name"; "Adjusted Offensive Efficiency";
        "Adjusted Defensive Efficiency"; "eFGPct"; "TOPct"; "AdjTempo"; "PGOR"; "PGDR"];
     rows :=
       map (fun r => map (at_label (columns raw_example) r)
                         ["Post-Season Tournament"; "Tournament Winner?"; "Season";
                          "Mapped ESPN Team Name"; "Adjusted Offensive Efficiency";
                          "Adjusted Defensive Efficiency"; "eFGPct"; "TOPct"; "AdjTempo";
                          "PGOR"; "PGDR"])
           (rows raw_example) |}.

(** The scatter plot of the small table for AdjOE against AdjDE. *)
Definition scatter_example : Scatter :=
  {| scatter_x := [CFloat 104.25; CFloat 112.75; CFloat 108.5];
     scatter_y := [CFloat 99.5; CFloat 93.5; CFloat 97.75];
     scatter_color := [CStr "Did Not Qualify"; CStr "Made NCAA Tournament";
                       CStr "Made NCAA Tournament"];
     scatter_hover := [[CInt 2010; CStr "Bravo"]; [CInt 2013; CStr "Echo"];
                       [CInt 2015; CStr "Golf"]];
     scatter_title := "AdjOE vs AdjDE" |}.

(** ** Proof steps for statements in sequence *)

(** The bound statement [m] has returned a value [t]; had it raised, the
    whole sequence would have, against the equation at hand. *)
Ltac returned m t E :=
  destruct m as [t|?] eqn:E; cbn [bind]; [|discriminate].

(** A closed float expression is one of the two zeros. *)
Ltac zero_or_minus_zero := first [left; reflexivity | right; reflexivity].

(** ** Lists, masks and lookups *)

Lemma compress_map {A B : Type} (p : A -> bool) (f : A -> B) (l : list A) :
  compress (map p l) (map f l) = map f (filter p l).
Proof.
  induction l as [|x l IH]; simpl; [reflexivity|].
  destruct (p x); simpl; rewrite IH; reflexivity.
Qed.

Lemma and_mask_map {A : Type} (p q : A -> bool) (l : list A) :
  and_mask (map p l) (map q l) = map (fun x => (p x && q x)%bool) l.
Proof.
  induction l as [|x l IH]; simpl; [reflexivity|]. rewrite IH. reflexivity.
Qed.

Lemma filter_twice {A : Type} (p q : A -> bool) (l : list A) :
  filter q (filter p l) = filter (fun x => (p x && q x)%bool) l.
Proof.
  induction l as [|x l IH]; simpl; [reflexivity|].
  destruct (p x); simpl; [destruct (q x)|]; rewrite IH; reflexivity.
Qed.

Lemma get_loc_None (c : string) (cols : list string) :
  get_loc c cols = None <-> ~ In c cols.
Proof.
  induction cols as [|c' cols IH]; simpl.
  - split; [intros _ []|reflexivity].
  - destruct (String.eqb_spec c' c) as [->|Hne].
    + split; [discriminate|]. intros H. exfalso. apply H. left. reflexivity.
    + destruct (get_loc c cols) as [i|].
      * split; [discriminate|]. intros H. exfalso.
        assert (Hin : In c cols).
        { destruct (in_dec string_dec c cols) as [Hin|Hout]; [exact Hin|].
          apply IH in Hout. discriminate. }
        apply H. right. exact Hin.
      * split; [|reflexivity]. intros _ [Heq|Hin]; [contradiction|].
        apply (proj1 IH); [reflexivity|exact Hin].
Qed.

(** A projected row gives back, under a label it was projected to, the
    cell that was read for that label. *)
Lemma at_label_map (f : string -> cell) (want : list string) (c : string) :
  In c want -> at_label want (map f want) c = f c.
Proof.
  unfold at_label. induction want as [|c' want IH]; simpl; [intros []|].
  intros Hin. destruct (String.eqb_spec c' c) as [->|Hne]; [reflexivity|].
  destruct Hin as [Heq|Hin]; [contradiction|].
  specialize (IH Hin). destruct (get_loc c want) as [i|] eqn:Hloc.
  - exact IH.
  - apply get_loc_None in Hloc. contradiction.
Qed.

Lemma getitem_Some (df : DataFrame) (c : string) (i : nat) :
  get_loc c (columns df) = Some i ->
  getitem df c = Ok (map (fun r => at_label (columns df) r c) (rows df)).
Proof.
  intros H. unfold getitem, column_values, at_label. rewrite H. reflexivity.
Qed.

Lemma not_in_index_nil (cols want : list string) :
  not_in_index cols want = [] <-> incl want cols.
Proof.
  unfold not_in_index. induction want as [|c want IH]; simpl.
  - split; [intros _ x []|reflexivity].
  - destruct (get_loc c cols) as [i|] eqn:Hloc.
    + rewrite IH. split.
      * intros H x [<-|Hx]; [|apply H; exact Hx].
        destruct (in_dec string_dec c cols) as [Hin|Hout]; [exact Hin|].
        apply get_loc_None in Hout. congruence.
      * intros H x Hx. apply H. right. exact Hx.
    + split; [discriminate|]. intros H. exfalso.
      apply get_loc_None in Hloc. apply Hloc, H. left. reflexivity.
Qed.

Lemma not_in_index_spec (cols want : list string) (k : string) :
  In k (not_in_index cols want) <-> In k want /\ ~ In k cols.
Proof.
  unfold not_in_index. rewrite filter_In. split; intros [H1 H2]; split; try exact H1.
  - destruct (get_loc k cols) eqn:E; [discriminate|]. apply get_loc_None. exact E.
  - apply get_loc_None in H2. rewrite H2. reflexivity.
Qed.

Lemma traverse_gt_int (k : Z) (l : list cell) (m : list bool) :
  traverse (gt_int k) l = Ok m ->
  m = map (fun x => match gt_int k x with Ok b => b | Raise _ => false end) l.
Proof.
  revert m. induction l as [|x l IH]; simpl; intros m H.
  - injection H as <-. reflexivity.
  - destruct (gt_int k x) as [b|e]; simpl in H; [|discriminate].
    destruct (traverse (gt_int k) l) as [bs|e]; simpl in H; [|discriminate].
    injection H as <-. rewrite (IH bs eq_refl). reflexivity.
Qed.

Lemma put_column_map {A : Type} (i : nat) (h : A -> cell) (g : A -> list cell) (l : list A) :
  put_column i (map h l) (map g l) = map (fun r => put i (h r) (g r)) l.
Proof.
  induction l as [|x l IH]; simpl; [reflexivity|]. rewrite IH. reflexivity.
Qed.

Lemma getitem_projected (cols want : list string) (l : list (list cell)) (c : string) :
  In c want ->
  getitem {| columns := want; rows := map (fun r => map (at_label cols r) want) l |} c
  = Ok (map (fun r => at_label cols r c) l).
Proof.
  intros Hin. destruct (get_loc c want) as [i|] eqn:Hloc.
  - rewrite (getitem_Some {| columns := want; rows := _ |} c i Hloc). simpl.
    rewrite map_map. f_equal.
    apply map_ext. intros r. apply at_label_map. exact Hin.
  - apply get_loc_None in Hloc. contradiction.
Qed.

(** ** The stages of the cleaning, one equation each *)

Section Stages.

Variable mm : DataFrame.

Let cols := columns mm.

Lemma mm_sub_loc_Ok (t : DataFrame) :
  mm_sub_loc mm = Ok t ->
  t = {| columns := loc_columns;
         rows := map (fun r => map (at_label cols r) loc_columns)
                     (filter (not_winner cols) (rows mm)) |}.
Proof.
  unfold mm_sub_loc, getitem.
  destruct (get_loc "Tournament Winner?" (columns mm)) as [i|] eqn:Hloc; simpl;
    [|discriminate].
  unfold loc, getitem_columns.
  destruct (not_in_index (columns mm) loc_columns); simpl; [|discriminate].
  intros H. injection H as <-. unfold getitem_mask, column_values. simpl.
  rewrite map_map, compress_map. f_equal. f_equal.
  apply filter_ext. intros r. unfold not_winner, at_label. fold cols.
  unfold cols. rewrite Hloc. reflexivity.
Qed.

Lemma mm_sub_kept_Ok (t : DataFrame) :
  mm_sub_kept mm = Ok t ->
  t = {| columns := kept_columns;
         rows := map (fun r => map (at_label cols r) kept_columns)
                     (filter (not_winner cols) (rows mm)) |}.
Proof.
  unfold mm_sub_kept. returned (mm_sub_loc mm) t1 E.
  apply mm_sub_loc_Ok in E. subst t1. unfold getitem_columns. simpl columns.
  change (not_in_index loc_columns kept_columns) with (@nil string).
  intros H. injection H as <-. simpl rows. rewrite map_map. reflexivity.
Qed.

Lemma mm_sub_played_Ok (t : DataFrame) :
  mm_sub_played mm = Ok t ->
  t = {| columns := kept_columns;
         rows := map (fun r => map (at_label cols r) kept_columns)
                     (filter (fun r => (not_winner cols r && played cols r)%bool)
                             (rows mm)) |}.
Proof.
  unfold mm_sub_played. returned (mm_sub_kept mm) t1 E.
  apply mm_sub_kept_Ok in E. subst t1.
  rewrite !getitem_projected by (simpl; tauto). simpl.
  intros H. injection H as <-. unfold getitem_mask. simpl.
  rewrite !map_map, and_mask_map, compress_map, filter_twice. reflexivity.
Qed.

Lemma mm_sub_renamed_Ok (t : DataFrame) :
  mm_sub_renamed mm = Ok t ->
  t = {| columns := cleaned_columns;
         rows := map (fun r => map (at_label cols r) kept_columns)
                     (filter (fun r => (not_winner cols r && played cols r)%bool)
                             (rows mm)) |}.
Proof.
  unfold mm_sub_renamed.
  returned (mm_sub_played mm) t1 E.
  apply mm_sub_played_Ok in E. subst t1.
  intros H. injection H as <-. reflexivity.
Qed.

Lemma mm_sub_labelled_Ok (t : DataFrame) :
  mm_sub_labelled mm = Ok t ->
  t = {| columns := cleaned_columns;
         rows := map (labelled_row cols)
                     (filter (fun r => (not_winner cols r && played cols r)%bool)
                             (rows mm)) |}.
Proof.
  unfold mm_sub_labelled.
  returned (mm_sub_renamed mm) t1 E.
  apply mm_sub_renamed_Ok in E. subst t1.
  unfold getitem, column_values. simpl columns.
  change (get_loc "March Madness?" cleaned_columns) with (Some 9%nat). simpl bind.
  unfold setitem. simpl rows. simpl columns.
  rewrite !length_map, Nat.eqb_refl. simpl negb. cbv iota.
  change (get_loc "March Madness?" cleaned_columns) with (Some 9%nat).
  intros H. injection H as <-. f_equal.
  rewrite !map_map, put_column_map. apply map_ext. intros r. reflexivity.
Qed.

(** The cleaned table: its labels, and its rows as the retained raw
    rows, each turned into a cleaned row, in their order. *)
Lemma mm_sub_Ok (t : DataFrame) :
  mm_sub mm = Ok t ->
  t = {| columns := cleaned_columns;
         rows := map (labelled_row cols) (filter (retained cols) (rows mm)) |}.
Proof.
  unfold mm_sub.
  returned (mm_sub_labelled mm) t1 E.
  apply mm_sub_labelled_Ok in E. subst t1.
  unfold getitem, column_values. simpl columns.
  change (get_loc "Season" cleaned_columns) with (Some 0%nat). simpl bind.
  simpl rows.
  destruct (traverse (gt_int 2006) _) as [recent|e] eqn:Hrecent; simpl; [|discriminate].
  apply traverse_gt_int in Hrecent. subst recent.
  intros H. injection H as <-. unfold getitem_mask. simpl.
  rewrite !map_map, compress_map, filter_twice. reflexivity.
Qed.

End Stages.

(** ** When the cleaning succeeds *)

Lemma traverse_gt_int_total (k : Z) (l : list cell) :
  Forall (fun x => forall s, x <> CStr s) l ->
  exists m, traverse (gt_int k) l = Ok m.
Proof.
  induction 1 as [|x l Hx _ [m IH]]; simpl.
  - exists []. reflexivity.
  - rewrite IH. destruct x as [z|f|b|s]; simpl; try (eexists; reflexivity).
    exfalso. apply (Hx s). reflexivity.
Qed.

Lemma mm_sub_loc_total (mm : DataFrame) :
  incl loc_columns (columns mm) -> exists t, mm_sub_loc mm = Ok t.
Proof.
  intros H. unfold mm_sub_loc, getitem.
  destruct (get_loc "Tournament Winner?" (columns mm)) as [i|] eqn:Hloc; cbn [bind].
  - unfold loc, getitem_columns. rewrite (proj2 (not_in_index_nil _ _) H). cbn [bind].
    eexists. reflexivity.
  - apply get_loc_None in Hloc. exfalso. apply Hloc, H. simpl. tauto.
Qed.

Lemma mm_sub_labelled_total (mm : DataFrame) :
  incl loc_columns (columns mm) -> exists t, mm_sub_labelled mm = Ok t.
Proof.
  intros H. destruct (mm_sub_loc_total mm H) as [t1 H1].
  assert (H2 : exists t2, mm_sub_kept mm = Ok t2).
  { unfold mm_sub_kept. rewrite H1. cbn [bind].
    rewrite (mm_sub_loc_Ok mm t1 H1). eexists. reflexivity. }
  destruct H2 as [t2 H2].
  assert (H3 : exists t3, mm_sub_played mm = Ok t3).
  { unfold mm_sub_played. rewrite H2. cbn [bind].
    rewrite (mm_sub_kept_Ok mm t2 H2). eexists. reflexivity. }
  destruct H3 as [t3 H3].
  assert (H4 : mm_sub_renamed mm = Ok (rename short_names t3)).
  { unfold mm_sub_renamed. rewrite H3. reflexivity. }
  unfold mm_sub_labelled. rewrite H4. cbn [bind].
  rewrite (mm_sub_renamed_Ok mm _ H4).
  unfold getitem, column_values. simpl columns.
  change (get_loc "March Madness?" cleaned_columns) with (Some 9%nat). cbn [bind].
  unfold setitem. simpl rows. simpl columns.
  rewrite !length_map, Nat.eqb_refl. simpl negb. cbv iota.
  change (get_loc "March Madness?" cleaned_columns) with (Some 9%nat).
  eexists. reflexivity.
Qed.

(** On a raw table that has the eleven columns and no str in its Season
    column the cleaning returns a table. *)
Lemma mm_sub_total (mm : DataFrame) :
  incl loc_columns (columns mm) ->
  Forall (fun raw => forall s, at_label (columns mm) raw "Season" <> CStr s) (rows mm) ->
  exists t, mm_sub mm = Ok t.
Proof.
  intros H Hseason. destruct (mm_sub_labelled_total mm H) as [t0 H0].
  unfold mm_sub. rewrite H0. cbn [bind].
  rewrite (mm_sub_labelled_Ok mm t0 H0).
  unfold getitem, column_values. simpl columns.
  change (get_loc "Season" cleaned_columns) with (Some 0%nat). cbn [bind]. simpl rows.
  destruct (traverse_gt_int_total 2006
              (map (fun r => iat r 0)
                   (map (labelled_row (columns mm))
                        (filter (fun r => (not_winner (columns mm) r
                                           && played (columns mm) r)%bool)
                                (rows mm))))) as [recent Hrecent].
  - apply Forall_forall. intros x Hx. apply in_map_iff in Hx.
    destruct Hx as [r [<- Hr]]. apply in_map_iff in Hr. destruct Hr as [raw [<- Hraw]].
    apply filter_In in Hraw. destruct Hraw as [Hraw _].
    rewrite Forall_forall in Hseason. exact (Hseason raw Hraw).
  - rewrite Hrecent. cbn [bind]. eexists. reflexivity.
Qed.

(** ** Reading the tests *)

Lemma eq_str_spec (v : string) (x : cell) : eq_str v x = true <-> x = CStr v.
Proof.
  destruct x as [z|f|b|s]; simpl; try (split; [discriminate|intros H; discriminate H]).
  rewrite String.eqb_eq. split; [intros ->; reflexivity|intros H; injection H; auto].
Qed.

Lemma retained_spec (cols : list string) (r : list cell) :
  retained cols r = true <->
  at_label cols r "Tournament Winner?" = CStr "No"
  /\ ne_zero (at_label cols r "eFGPct") = true
  /\ ne_zero (at_label cols r "Adjusted Defensive Efficiency") = true
  /\ gt_int 2006 (at_label cols r "Season") = Ok true.
Proof.
  unfold retained, played, not_winner, after_2006.
  rewrite !andb_true_iff, eq_str_spec.
  destruct (gt_int 2006 (at_label cols r "Season")) as [b|e].
  - split.
    + intros [[H1 [H2 H3]] H4]. subst b. auto.
    + intros [H1 [H2 [H3 H4]]]. injection H4 as ->. auto.
  - split; [intros [_ H]; discriminate|intros [_ [_ [_ H]]]; discriminate].
Qed.

Lemma gt_2006_true (x : cell) :
  gt_int 2006 x = Ok true ->
  (exists z, x = CInt z /\ 2006 < z)
  \/ (exists f, x = CFloat f /\ PrimFloat.ltb 2006%float f = true).
Proof.
  destruct x as [z|f|b|s]; simpl; intros H; try discriminate; injection H as H.
  - left. exists z. split; [reflexivity|]. apply Z.ltb_lt. exact H.
  - right. exists f. split; [reflexivity|exact H].
  - destruct b; discriminate H.
Qed.

Lemma Forall2_map_self {A B : Type} (P : A -> B -> Prop) (f : A -> B) (l : list A) :
  (forall x, In x l -> P x (f x)) -> Forall2 P l (map f l).
Proof.
  induction l as [|x l IH]; simpl; intros H; constructor.
  - apply H. left. reflexivity.
  - apply IH. intros y Hy. apply H. right. exact Hy.
Qed.

(** ** The cleaned table *)

(** C1: in every row of the cleaned table the field "March Madness?" is 1
    when the raw row's "Post-Season Tournament" is the string
    "March Madness", 0 for every other value, and never anything else. *)
Theorem march_madness_label (mm t : DataFrame) :
  mm_sub mm = Ok t ->
  Forall2 (fun raw r =>
             (at_label (columns mm) raw "Post-Season Tournament" = CStr "March Madness" ->
              at_label (columns t) r "March Madness?" = CInt 1)
             /\ (at_label (columns mm) raw "Post-Season Tournament" <> CStr "March Madness" ->
                 at_label (columns t) r "March Madness?" = CInt 0)
             /\ (at_label (columns t) r "March Madness?" = CInt 0
                 \/ at_label (columns t) r "March Madness?" = CInt 1))
          (filter (retained (columns mm)) (rows mm)) (rows t).
Proof.
  intros H. apply mm_sub_Ok in H. subst t. simpl.
  apply Forall2_map_self. intros raw _.
  change (at_label cleaned_columns (labelled_row (columns mm) raw) "March Madness?")
    with (march_madness (at_label (columns mm) raw "Post-Season Tournament")).
  unfold march_madness.
  destruct (eq_str "March Madness" (at_label (columns mm) raw "Post-Season Tournament"))
    eqn:E.
  - apply eq_str_spec in E. simpl. repeat split; auto. intros Hne. contradiction.
  - simpl. repeat split; auto. intros Heq. apply eq_str_spec in Heq. congruence.
Qed.

Lemma march_madness_label_witness :
  mm_sub raw_example = Ok cleaned_example
  /\ Forall2 (fun raw r =>
             (at_label (columns raw_example) raw "Post-Season Tournament"
              = CStr "March Madness" ->
              at_label (columns cleaned_example) r "March Madness?" = CInt 1)
             /\ (at_label (columns raw_example) raw "Post-Season Tournament"
                 <> CStr "March Madness" ->
                 at_label (columns cleaned_example) r "March Madness?" = CInt 0)
             /\ (at_label (columns cleaned_example) r "March Madness?" = CInt 0
                 \/ at_label (columns cleaned_example) r "March Madness?" = CInt 1))
          (filter (retained (columns raw_example)) (rows raw_example))
          (rows cleaned_example).
Proof.
  split; [vm_compute; reflexivity|].
  apply (march_madness_label raw_example cleaned_example). vm_compute. reflexivity.
Defined.

Lemma app_Ok (python_float : string -> option float) (mm : DataFrame) (sel : Selection)
      (page : Page) :
  app python_float mm sel = Ok page ->
  exists t,
    mm_sub mm = Ok t
    /\ correlation_matrix python_float t = Ok (page_heatmap page)
    /\ fig_hist t (plot_col sel) = Ok (page_hist page)
    /\ fig_scatter t (x_sc sel) (y_sc sel) = Ok (page_scatter page).
Proof.
  unfold app.
  returned (missing_plot mm) plot Hplot.
  returned (mm_sub mm) t Ht.
  returned (correlation_matrix python_float t) heat Hheat.
  returned (fig_hist t (plot_col sel)) hist Hhist.
  returned (fig_scatter t (x_sc sel) (y_sc sel)) scat Hscat.
  intros H. injection H as <-. exists t. cbn [page_heatmap page_hist page_scatter].
  repeat split; assumption || reflexivity.
Qed.

(** C2: in every row of the cleaned table the Season is greater than
    2006, and a raw row of Season 2005 is not among the rows the cleaned
    table is made of; the heatmap, the histogram and the scatter plot of
    a run are drawn from this table. *)
Theorem season_after_2006 (mm t : DataFrame) :
  mm_sub mm = Ok t ->
  Forall (fun r =>
            (exists z, at_label (columns t) r "Season" = CInt z /\ 2006 < z)
            \/ (exists f, at_label (columns t) r "Season" = CFloat f
                          /\ PrimFloat.ltb 2006%float f = true))
         (rows t)
  /\ rows t = map (labelled_row (columns mm)) (filter (retained (columns mm)) (rows mm))
  /\ (forall raw,
        at_label (columns mm) raw "Season" = CInt 2005 ->
        ~ In raw (filter (retained (columns mm)) (rows mm)))
  /\ (forall python_float sel page,
        app python_float mm sel = Ok page ->
        correlation_matrix python_float t = Ok (page_heatmap page)
        /\ fig_hist t (plot_col sel) = Ok (page_hist page)
        /\ fig_scatter t (x_sc sel) (y_sc sel) = Ok (page_scatter page)).
Proof.
  intros H. split; [|split; [|split]].
  - apply mm_sub_Ok in H. subst t. simpl.
    apply Forall_forall. intros r Hr. apply in_map_iff in Hr.
    destruct Hr as [raw [<- Hraw]]. apply filter_In in Hraw. destruct Hraw as [_ Hraw].
    apply retained_spec in Hraw. destruct Hraw as [_ [_ [_ Hs]]].
    apply gt_2006_true. exact Hs.
  - apply mm_sub_Ok in H. subst t. reflexivity.
  - intros raw Hs Hin. apply filter_In in Hin. destruct Hin as [_ Hin].
    apply retained_spec in Hin. destruct Hin as [_ [_ [_ Hgt]]].
    rewrite Hs in Hgt. discriminate Hgt.
  - intros python_float sel page Hpage. apply app_Ok in Hpage.
    destruct Hpage as [t' [Ht' Hviews]]. rewrite H in Ht'. injection Ht' as <-.
    exact Hviews.
Qed.

Lemma season_after_2006_witness :
  Forall (fun r =>
            (exists z, at_label (columns cleaned_example) r "Season" = CInt z /\ 2006 < z)
            \/ (exists f, at_label (columns cleaned_example) r "Season" = CFloat f
                          /\ PrimFloat.ltb 2006%float f = true))
         (rows cleaned_example)
  /\ rows cleaned_example
     = map (labelled_row (columns raw_example))
           (filter (retained (columns raw_example)) (rows raw_example))
  /\ (forall raw,
        at_label (columns raw_example) raw "Season" = CInt 2005 ->
        ~ In raw (filter (retained (columns raw_example)) (rows raw_example)))
  /\ (forall python_float sel page,
        app python_float raw_example sel = Ok page ->
        correlation_matrix python_float cleaned_example = Ok (page_heatmap page)
        /\ fig_hist cleaned_example (plot_col sel) = Ok (page_hist page)
        /\ fig_scatter cleaned_example (x_sc sel) (y_sc sel) = Ok (page_scatter page)).
Proof.
  apply (season_after_2006 raw_example cleaned_example). vm_compute. reflexivity.
Defined.

(** C3: no row of the cleaned table has an eFGPct or an AdjDE equal to
    0 (the integer 0, the float 0.0 or the float -0.0), and a raw row
    with eFGPct 0 and Season 2021 is not among the rows the cleaned table
    is made of. *)
Theorem no_zero_eFGPct_or_AdjDE (mm t : DataFrame) :
  mm_sub mm = Ok t ->
  Forall (fun r =>
            forall x,
              x = at_label (columns t) r "eFGPct" \/ x = at_label (columns t) r "AdjDE" ->
              ne_zero x = true
              /\ x <> CInt 0 /\ x <> CFloat 0%float /\ x <> CFloat (-0)%float)
         (rows t)
  /\ rows t = map (labelled_row (columns mm)) (filter (retained (columns mm)) (rows mm))
  /\ forall raw,
       at_label (columns mm) raw "eFGPct" = CFloat 0%float ->
       at_label (columns mm) raw "Season" = CInt 2021 ->
       ~ In raw (filter (retained (columns mm)) (rows mm)).
Proof.
  intros H. apply mm_sub_Ok in H. subst t. simpl. split; [|split; [reflexivity|]].
  - apply Forall_forall. intros r Hr. apply in_map_iff in Hr.
    destruct Hr as [raw [<- Hraw]]. apply filter_In in Hraw. destruct Hraw as [_ Hraw].
    apply retained_spec in Hraw. destruct Hraw as [_ [He [Hd _]]].
    intros x Hx.
    assert (Hnz : ne_zero x = true).
    { destruct Hx as [-> | ->]; [exact He|exact Hd]. }
    split; [exact Hnz|].
    repeat split; intros ->; discriminate Hnz.
  - intros raw He _ Hin. apply filter_In in Hin. destruct Hin as [_ Hin].
    apply retained_spec in Hin. destruct Hin as [_ [Hnz _]].
    rewrite He in Hnz. discriminate Hnz.
Qed.

Lemma no_zero_eFGPct_or_AdjDE_witness :
  Forall (fun r =>
            forall x,
              x = at_label (columns cleaned_example) r "eFGPct"
              \/ x = at_label (columns cleaned_example) r "AdjDE" ->
              ne_zero x = true
              /\ x <> CInt 0 /\ x <> CFloat 0%float /\ x <> CFloat (-0)%float)
         (rows cleaned_example)
  /\ rows cleaned_example
     = map (labelled_row (columns raw_example))
           (filter (retained (columns raw_example)) (rows raw_example))
  /\ forall raw,
       at_label (columns raw_example) raw "eFGPct" = CFloat 0%float ->
       at_label (columns raw_example) raw "Season" = CInt 2021 ->
       ~ In raw (filter (retained (columns raw_example)) (rows raw_example)).
Proof.
  apply (no_zero_eFGPct_or_AdjDE raw_example cleaned_example). vm_compute. reflexivity.
Defined.

(** C4: every row of the cleaned table is made from a raw row whose
    "Tournament Winner?" is "No"; a raw row marked "Yes", an automatic
    qualifier, is not among them. *)
Theorem no_automatic_qualifier (mm t : DataFrame) :
  mm_sub mm = Ok t ->
  exists pool,
    rows t = map (labelled_row (columns mm)) pool
    /\ Forall (fun raw =>
                 In raw (rows mm)
                 /\ at_label (columns mm) raw "Tournament Winner?" = CStr "No")
              pool
    /\ forall raw,
         at_label (columns mm) raw "Tournament Winner?" = CStr "Yes" -> ~ In raw pool.
Proof.
  intros H. apply mm_sub_Ok in H. subst t. simpl.
  exists (filter (retained (columns mm)) (rows mm)).
  split; [reflexivity|]. split.
  - apply Forall_forall. intros raw Hin. apply filter_In in Hin.
    destruct Hin as [Hin Hkeep]. apply retained_spec in Hkeep. tauto.
  - intros raw Hyes Hin. apply filter_In in Hin. destruct Hin as [_ Hkeep].
    apply retained_spec in Hkeep. destruct Hkeep as [Hno _].
    rewrite Hyes in Hno. discriminate Hno.
Qed.

Lemma no_automatic_qualifier_witness :
  exists pool,
    rows cleaned_example = map (labelled_row (columns raw_example)) pool
    /\ Forall (fun raw =>
                 In raw (rows raw_example)
                 /\ at_label (columns raw_example) raw "Tournament Winner?" = CStr "No")
              pool
    /\ forall raw,
         at_label (columns raw_example) raw "Tournament Winner?" = CStr "Yes" ->
         ~ In raw pool.
Proof.
  apply (no_automatic_qualifier raw_example cleaned_example). vm_compute. reflexivity.
Defined.

(** C10: the first filter lets a raw row through only when its
    "Tournament Winner?" is the string "No"; a row with any other value
    there, a missing one included, is dropped by it and so is not one of
    the rows the cleaned table is made of. *)
Theorem only_No_passes_first_filter (mm t1 : DataFrame) :
  mm_sub_loc mm = Ok t1 ->
  rows t1 = map (fun raw => map (at_label (columns mm) raw) loc_columns)
                (filter (not_winner (columns mm)) (rows mm))
  /\ (forall raw,
        In raw (filter (not_winner (columns mm)) (rows mm)) <->
        In raw (rows mm) /\ at_label (columns mm) raw "Tournament Winner?" = CStr "No")
  /\ (forall t raw,
        mm_sub mm = Ok t ->
        at_label (columns mm) raw "Tournament Winner?" <> CStr "No" ->
        rows t = map (labelled_row (columns mm)) (filter (retained (columns mm)) (rows mm))
        /\ ~ In raw (filter (retained (columns mm)) (rows mm))).
Proof.
  intros H. apply mm_sub_loc_Ok in H. subst t1. simpl. split; [reflexivity|]. split.
  - intros raw. rewrite filter_In. unfold not_winner. rewrite eq_str_spec. tauto.
  - intros t raw Ht Hne. apply mm_sub_Ok in Ht. subst t. simpl. split; [reflexivity|].
    intros Hin. apply filter_In in Hin. destruct Hin as [_ Hkeep].
    apply retained_spec in Hkeep. tauto.
Qed.

Lemma only_No_passes_first_filter_witness :
  rows loc_example
  = map (fun raw => map (at_label (columns raw_example) raw) loc_columns)
        (filter (not_winner (columns raw_example)) (rows raw_example))
  /\ (forall raw,
        In raw (filter (not_winner (columns raw_example)) (rows raw_example)) <->
        In raw (rows raw_example)
        /\ at_label (columns raw_example) raw "Tournament Winner?" = CStr "No")
  /\ (forall t raw,
        mm_sub raw_example = Ok t ->
        at_label (columns raw_example) raw "Tournament Winner?" <> CStr "No" ->
        rows t = map (labelled_row (columns raw_example))
                     (filter (retained (columns raw_example)) (rows raw_example))
        /\ ~ In raw (filter (retained (columns raw_example)) (rows raw_example))).
Proof.
  apply (only_No_passes_first_filter raw_example loc_example). vm_compute. reflexivity.
Defined.

(** ** Missing columns *)

Lemma mm_sub_loc_missing (mm : DataFrame) :
  (exists c, In c loc_columns /\ ~ In c (columns mm)) ->
  exists ks,
    mm_sub_loc mm = Raise (KeyError ks)
    /\ ks <> []
    /\ Forall (fun k => In k loc_columns /\ ~ In k (columns mm)) ks.
Proof.
  intros [c [Hc Hout]]. unfold mm_sub_loc, getitem.
  destruct (get_loc "Tournament Winner?" (columns mm)) as [i|] eqn:Hloc; simpl.
  - unfold loc, getitem_columns.
    destruct (not_in_index (columns mm) loc_columns) as [|k ks] eqn:Hmiss; simpl.
    + apply not_in_index_nil in Hmiss. exfalso. apply Hout, Hmiss, Hc.
    + exists (k :: ks). split; [reflexivity|]. split; [discriminate|].
      apply Forall_forall. intros k' Hk'. rewrite <- Hmiss in Hk'.
      apply not_in_index_spec in Hk'. exact Hk'.
  - exists ["Tournament Winner?"]. split; [reflexivity|]. split; [discriminate|].
    constructor; [|constructor]. split; [simpl; tauto|].
    apply get_loc_None. exact Hloc.
Qed.

(** In the script itself nothing catches the exception: when a required
    column is absent, the KeyError leaves it. *)
Lemma missing_column_raises_KeyError
      (python_float : string -> option float) (mm : DataFrame) (sel : Selection) :
  (exists c, In c loc_columns /\ ~ In c (columns mm)) ->
  exists ks,
    app python_float mm sel = Raise (KeyError ks)
    /\ ks <> []
    /\ Forall (fun k => In k loc_columns /\ ~ In k (columns mm)) ks.
Proof.
  intros H. destruct (mm_sub_loc_missing mm H) as [ks [Hraise Hks]].
  exists ks. split; [|exact Hks].
  unfold app, missing_plot, mm_sub_labelled, mm_sub_renamed, mm_sub_played, mm_sub_kept.
  rewrite Hraise. reflexivity.
Qed.

(** The page and the script agree: the four views are on the page when
    the script returns them, and an exception box shows the exception
    that left the script, as the last element of the page. *)
Lemma streamlit_run_app
      (python_float : string -> option float) (mm : DataFrame) (sel : Selection) :
  match app python_float mm sel with
  | Ok page =>
      exists t,
        mm_sub mm = Ok t
        /\ streamlit_run python_float mm sel
           = [Pyplot (page_missing page);
              HeatmapChart (page_heatmap page) (selected_features t);
              HistogramChart (page_hist page);
              ScatterChart (page_scatter page)]
  | Raise e =>
      exists shown,
        streamlit_run python_float mm sel = (shown ++ [ExceptionBox e])%list
        /\ Forall (fun x => forall e', x <> ExceptionBox e') shown
  end.
Proof.
  unfold app, streamlit_run.
  destruct (missing_plot mm) as [plot|e]; cbn [bind].
  2:{ exists []. split; [reflexivity|constructor]. }
  destruct (mm_sub mm) as [t|e]; cbn [bind].
  2:{ exists [Pyplot plot]. split; [reflexivity|].
      repeat constructor; discriminate. }
  destruct (correlation_matrix python_float t) as [heat|e]; cbn [bind].
  2:{ exists [Pyplot plot]. split; [reflexivity|].
      repeat constructor; discriminate. }
  destruct (fig_hist t (plot_col sel)) as [hist|e]; cbn [bind].
  2:{ exists [Pyplot plot; HeatmapChart heat (selected_features t)].
      split; [reflexivity|]. repeat constructor; discriminate. }
  destruct (fig_scatter t (x_sc sel) (y_sc sel)) as [scat|e]; cbn [bind].
  2:{ exists [Pyplot plot; HeatmapChart heat (selected_features t); HistogramChart hist].
      split; [reflexivity|]. repeat constructor; discriminate. }
  exists t. split; reflexivity.
Qed.



(** ** The missing-values plot *)





Lemma isna_array_labelled (cols : list string) (l : list (list cell)) :
  isna_array {| columns := cleaned_columns; rows := map (labelled_row cols) l |}
  = map (map (fun x => Z.b2z (isna x))) (map (labelled_row cols) l).
Proof.
  unfold isna_array. simpl rows. rewrite !map_map. apply map_ext. intros r. reflexivity.
Qed.

(** C6, as the code has it: the missing-values map is the 0/1 grid of
    all ten columns and all rows of the table as it stands after the
    label is derived (line 41), before the season filter.  That table
    keeps the other invariants: its rows are made from the raw rows
    whose "Tournament Winner?" is "No" and whose eFGPct and defensive
    efficiency pass the zero test, none has an eFGPct or an AdjDE equal
    to 0, and every label is 0 or 1; the rows of the cleaned table are
    those of its rows whose Season is greater than 2006. *)
Theorem missing_map_precedes_season_filter (mm : DataFrame) (a : list (list Z)) :
  nan_array mm = Ok a ->
  exists t0,
    mm_sub_labelled mm = Ok t0
    /\ columns t0 = cleaned_columns
    /\ a = map (map (fun x => Z.b2z (isna x))) (rows t0)
    /\ Forall (fun line => List.length line = 10%nat
                           /\ Forall (fun v => v = 0 \/ v = 1) line) a
    /\ rows t0
       = map (labelled_row (columns mm))
             (filter (fun raw => (not_winner (columns mm) raw
                                  && played (columns mm) raw)%bool)
                     (rows mm))
    /\ Forall (fun raw =>
                 at_label (columns mm) raw "Tournament Winner?" = CStr "No")
              (filter (fun raw => (not_winner (columns mm) raw
                                   && played (columns mm) raw)%bool)
                      (rows mm))
    /\ Forall (fun r =>
                 (forall x,
                    x = at_label (columns t0) r "eFGPct"
                    \/ x = at_label (columns t0) r "AdjDE" ->
                    x <> CInt 0 /\ x <> CFloat 0%float /\ x <> CFloat (-0)%float)
                 /\ (at_label (columns t0) r "March Madness?" = CInt 0
                     \/ at_label (columns t0) r "March Madness?" = CInt 1))
              (rows t0)
    /\ forall t, mm_sub mm = Ok t ->
         columns t = columns t0
         /\ rows t = filter (fun r => after_2006 (at_label (columns t0) r "Season"))
                            (rows t0).
Proof.
  unfold nan_array. returned (mm_sub_labelled mm) t0 E.
  intros Ha. injection Ha as <-. exists t0. split; [reflexivity|].
  pose proof (mm_sub_labelled_Ok mm t0 E) as Ht0. subst t0. simpl columns. simpl rows.
  split; [reflexivity|]. split; [apply isna_array_labelled|].
  split; [|split; [reflexivity|split; [|split]]].
  - rewrite isna_array_labelled. apply Forall_forall. intros line Hline.
    apply in_map_iff in Hline. destruct Hline as [r [<- Hr]].
    apply in_map_iff in Hr. destruct Hr as [raw [<- _]].
    split; [reflexivity|]. apply Forall_forall. intros v Hv.
    apply in_map_iff in Hv. destruct Hv as [x [<- _]]. destruct (isna x); auto.
  - apply Forall_forall. intros raw Hraw. apply filter_In in Hraw.
    destruct Hraw as [_ Hq]. apply andb_prop in Hq. destruct Hq as [Hno _].
    apply eq_str_spec. exact Hno.
  - apply Forall_forall. intros r Hr. apply in_map_iff in Hr.
    destruct Hr as [raw [<- Hraw]]. apply filter_In in Hraw. destruct Hraw as [_ Hq].
    apply andb_prop in Hq. destruct Hq as [_ Hplayed]. unfold played in Hplayed.
    apply andb_prop in Hplayed. destruct Hplayed as [Hefg Hade]. split.
    + intros x Hx.
      assert (Hnz : ne_zero x = true).
      { destruct Hx as [-> | ->]; [exact Hefg|exact Hade]. }
      repeat split; intros ->; discriminate Hnz.
    + change (at_label cleaned_columns (labelled_row (columns mm) raw) "March Madness?")
        with (march_madness (at_label (columns mm) raw "Post-Season Tournament")).
      unfold march_madness.
      destruct (eq_str "March Madness"
                       (at_label (columns mm) raw "Post-Season Tournament")); auto.
  - intros t Ht. apply mm_sub_Ok in Ht. subst t. simpl. split; [reflexivity|].
    set (q := fun r => (not_winner (columns mm) r && played (columns mm) r)%bool).
    assert (Hsplit : filter (retained (columns mm)) (rows mm)
                     = filter (fun r => after_2006 (at_label (columns mm) r "Season"))
                              (filter q (rows mm))).
    { rewrite filter_twice. reflexivity. }
    rewrite Hsplit. generalize (filter q (rows mm)). intros l.
    induction l as [|r l IH]; simpl; [reflexivity|].
    change (at_label cleaned_columns (labelled_row (columns mm) r) "Season")
      with (at_label (columns mm) r "Season").
    destruct (after_2006 (at_label (columns mm) r "Season")); simpl; rewrite IH; reflexivity.
Qed.

Lemma missing_map_precedes_season_filter_witness :
  exists t0,
    mm_sub_labelled raw_example = Ok t0
    /\ columns t0 = cleaned_columns
    /\ nan_example = map (map (fun x => Z.b2z (isna x))) (rows t0)
    /\ Forall (fun line => List.length line = 10%nat
                           /\ Forall (fun v => v = 0 \/ v = 1) line)
              nan_example
    /\ rows t0
       = map (labelled_row (columns raw_example))
             (filter (fun raw => (not_winner (columns raw_example) raw
                                  && played (columns raw_example) raw)%bool)
                     (rows raw_example))
    /\ Forall (fun raw =>
                 at_label (columns raw_example) raw "Tournament Winner?" = CStr "No")
              (filter (fun raw => (not_winner (columns raw_example) raw
                                   && played (columns raw_example) raw)%bool)
                      (rows raw_example))
    /\ Forall (fun r =>
                 (forall x,
                    x = at_label (columns t0) r "eFGPct"
                    \/ x = at_label (columns t0) r "AdjDE" ->
                    x <> CInt 0 /\ x <> CFloat 0%float /\ x <> CFloat (-0)%float)
                 /\ (at_label (columns t0) r "March Madness?" = CInt 0
                     \/ at_label (columns t0) r "March Madness?" = CInt 1))
              (rows t0)
    /\ forall t, mm_sub raw_example = Ok t ->
         columns t = columns t0
         /\ rows t = filter (fun r => after_2006 (at_label (columns t0) r "Season"))
                            (rows t0).
Proof.
  apply (missing_map_precedes_season_filter raw_example nan_example).
  vm_compute. reflexivity.
Defined.

(** C6, as the spec has it, fails: the map of the example table has four
    rows, the first of them the 2005 season with its two missing ratings,
    where the cleaned table has three, none with a missing value. *)
Lemma missing_map_shows_2005 :
  nan_array raw_example = Ok nan_example
  /\ mm_sub raw_example = Ok cleaned_example
  /\ isna_array cleaned_example
     = [[0; 0; 0; 0; 0; 0; 0; 0; 0; 0];
        [0; 0; 0; 0; 0; 0; 0; 0; 0; 0];
        [0; 0; 0; 0; 0; 0; 0; 0; 0; 0]]
  /\ nan_array raw_example <> Ok (isna_array cleaned_example).
Proof.
  split; [vm_compute; reflexivity|]. split; [vm_compute; reflexivity|].
  split; [vm_compute; reflexivity|]. vm_compute. discriminate.
Qed.

(** ** The histogram *)

(** X18: for each of the eight options [px.histogram] is given the
    values of that one column of the cleaned table, one per row, 30 as
    its [nbins] and the title that names the column; no option is
    refused.  How many bins are drawn is plotly's choice when the figure
    is rendered, [nbins] being the most it may use. *)
Theorem histogram_of_selected_column (mm t : DataFrame) (plot_col : string) :
  mm_sub mm = Ok t ->
  In plot_col opts ->
  fig_hist t plot_col
  = Ok {| hist_x := map (fun r => at_label (columns t) r plot_col) (rows t);
          hist_nbins := 30;
          hist_title := "Histogram of " ++ plot_col |}.
Proof.
  intros H Hopt. apply mm_sub_Ok in H. subst t.
  simpl in Hopt.
  destruct Hopt as [<-|[<-|[<-|[<-|[<-|[<-|[<-|[<-|[]]]]]]]]]; reflexivity.
Qed.

Lemma histogram_of_selected_column_witness :
  fig_hist cleaned_example "AdjTempo"
  = Ok {| hist_x := [CFloat 68.5; CFloat 70.25; CFloat 65.75];
          hist_nbins := 30;
          hist_title := "Histogram of AdjTempo" |}.
Proof.
  apply (histogram_of_selected_column raw_example cleaned_example "AdjTempo").
  - vm_compute. reflexivity.
  - simpl. tauto.
Defined.

(** ** The correlation heatmap *)

Lemma nth_map_seq {A : Type} (f : nat -> A) (d : A) (k i : nat) :
  nth i (map f (seq 0 k)) d = if (i <? k)%nat then f i else d.
Proof.
  assert (H : forall s, nth i (map f (seq s k)) d
                        = if (i <? k)%nat then f (s + i)%nat else d).
  { revert i. induction k as [|k IH]; intros i s; simpl.
    - destruct i; reflexivity.
    - destruct i as [|i]; simpl.
      + rewrite Nat.add_0_r. reflexivity.
      + rewrite IH. change (S i <? S k)%nat with (i <? k)%nat.
        rewrite Nat.add_succ_r. reflexivity. }
  apply (H 0%nat).
Qed.

Lemma entry_nancorr (k : nat) (mat : list (list float)) (i j : nat) :
  entry (nancorr k mat) i j
  = if ((i <? k) && (j <? k))%nat%bool
    then pearson (float_column mat (Nat.max i j)) (float_column mat (Nat.min i j))
    else nan.
Proof.
  unfold entry, nancorr. rewrite nth_map_seq.
  destruct (i <? k)%nat; simpl.
  - rewrite nth_map_seq. reflexivity.
  - destruct j; reflexivity.
Qed.

Lemma nancorr_symmetric (k : nat) (mat : list (list float)) (i j : nat) :
  entry (nancorr k mat) i j = entry (nancorr k mat) j i.
Proof.
  rewrite !entry_nancorr, (Nat.max_comm i j), (Nat.min_comm i j), andb_comm. reflexivity.
Qed.

Lemma entry_round3 (m : list (list float)) (i j : nat) :
  entry (map (map round3) m) i j = round3 (entry m i j).
Proof.
  unfold entry.
  change (@nil float) with (map round3 []) at 1. rewrite map_nth.
  change nan with (round3 nan) at 1. rewrite map_nth. reflexivity.
Qed.

(** ** Binary64 arithmetic

    Facts about the primitive operations, read off their specification
    on [spec_float]. *)

Lemma zeroish_spec (z : float) (s : bool) : Prim2SF z = S754_zero s -> zeroish z.
Proof.
  intros H. destruct s; [right|left]; apply Prim2SF_inj; rewrite H; reflexivity.
Qed.

Lemma finite_cases (c : float) :
  PrimFloat.is_finite c = true ->
  zeroish c \/ exists s m e, Prim2SF c = S754_finite s m e.
Proof.
  unfold PrimFloat.is_finite, PrimFloat.is_nan, PrimFloat.is_infinity.
  rewrite !FloatAxioms.eqb_spec, abs_spec.
  destruct (Prim2SF c) as [s|s| |s m e] eqn:E; intros H.
  - left. apply (zeroish_spec _ _ E).
  - destruct s; discriminate H.
  - discriminate H.
  - right. exists s, m, e. reflexivity.
Qed.

Lemma mul_zeroish (y z : float) :
  zeroish z -> (y * z)%float = nan \/ zeroish (y * z)%float.
Proof.
  intros Hz.
  assert (H : exists s, Prim2SF z = S754_zero s).
  { destruct Hz as [-> | ->]; eexists; reflexivity. }
  destruct H as [s Hs].
  pose proof (mul_spec y z) as Hm. rewrite Hs in Hm.
  destruct (Prim2SF y) as [sy|sy| |sy my ey]; simpl in Hm.
  - right. apply (zeroish_spec _ _ Hm).
  - left. apply Prim2SF_inj. rewrite Hm. reflexivity.
  - left. apply Prim2SF_inj. rewrite Hm. reflexivity.
  - right. apply (zeroish_spec _ _ Hm).
Qed.

Lemma add_nan_l (z : float) : (nan + z)%float = nan.
Proof. apply Prim2SF_inj. rewrite add_spec. reflexivity. Qed.

Lemma add_nan_r (z : float) : (z + nan)%float = nan.
Proof.
  apply Prim2SF_inj. rewrite add_spec.
  change (Prim2SF nan) with S754_nan. destruct (Prim2SF z); reflexivity.
Qed.

Lemma sub_nan_r (z : float) : (z - nan)%float = nan.
Proof.
  apply Prim2SF_inj. rewrite sub_spec.
  change (Prim2SF nan) with S754_nan. destruct (Prim2SF z); reflexivity.
Qed.

Lemma div_nan_r (z : float) : (z / nan)%float = nan.
Proof.
  apply Prim2SF_inj. rewrite div_spec.
  change (Prim2SF nan) with S754_nan. destruct (Prim2SF z); reflexivity.
Qed.

Lemma sub_zero_r (x : float) : (x - 0)%float = x.
Proof.
  apply Prim2SF_inj. rewrite sub_spec. change (Prim2SF 0) with (S754_zero false).
  destruct (Prim2SF x) as [[|]|s| |s m e]; reflexivity.
Qed.

(** What holds of a float [c] that is finite and not a zero. *)
Section Finite.

Variables (c : float) (s : bool) (m : positive) (e : Z).

Hypothesis Hc : Prim2SF c = S754_finite s m e.

Lemma add_zero_l : (0 + c)%float = c.
Proof.
  apply Prim2SF_inj. rewrite add_spec, Hc. reflexivity.
Qed.

Lemma add_zeroish_r (z : float) : zeroish z -> (c + z)%float = c.
Proof.
  intros [-> | ->]; apply Prim2SF_inj; rewrite add_spec, Hc; reflexivity.
Qed.

Lemma sub_diag : (c - c)%float = 0%float.
Proof.
  apply Prim2SF_inj. rewrite sub_spec, Hc.
  change (Prim2SF 0) with (S754_zero false).
  unfold SF64sub, SFsub. rewrite Z.min_id.
  unfold shl_align. rewrite Z.sub_diag. reflexivity.
Qed.

Lemma mul_zero_l : zeroish (0 * c)%float.
Proof.
  pose proof (mul_spec 0 c) as H. rewrite Hc in H.
  apply (zeroish_spec _ _ H).
Qed.

(** Multiplying by 1 is exact: the product of the mantissas is shifted
    back by the 52 bits that the mantissa of 1 adds. *)
Lemma mul_one_l : (1 * c)%float = c.
Proof.
  pose proof (Prim2SF_valid c) as Hv. rewrite Hc in Hv.
  unfold valid_binary, bounded, canonical_mantissa in Hv.
  apply andb_prop in Hv. destruct Hv as [Hcan Hle].
  apply Z.eqb_eq in Hcan.
  apply Prim2SF_inj. rewrite mul_spec, Hc.
  change (Prim2SF 1) with (S754_finite false 4503599627370496 (-52)).
  unfold SF64mul, SFmul. cbn [xorb].
  assert (Hd : Zdigits2 (Z.pos (4503599627370496 * m)) = Z.pos (digits2_pos m) + 52).
  { cbn [Pos.mul Zdigits2 digits2_pos]. rewrite !Pos2Z.inj_succ. lia. }
  unfold binary_round_aux, shr_fexp. rewrite Hd.
  replace (Z.pos (digits2_pos m) + 52 + (-52 + e)) with (Z.pos (digits2_pos m) + e)
    by lia.
  rewrite Hcan. replace (e - (-52 + e)) with 52 by lia.
  cbn [Pos.mul].
  cbv [shr iter_pos shr_1 shr_record_of_loc orb shr_m loc_of_shr_record
       round_nearest_even].
  replace (-52 + e + 52) with e by lia.
  cbn [Zdigits2]. rewrite Hcan, Z.sub_diag. cbv [shr shr_record_of_loc shr_m].
  rewrite Hle. reflexivity.
Qed.

End Finite.

(** ** The running sums on a constant column *)

Lemma observe_constant_same_xy (c : float) (st : welford) :
  same_xy st -> same_xy (observe st (c, c)).
Proof.
  intros [Hm Hs]. unfold observe.
  destruct (PrimFloat.is_finite c && PrimFloat.is_finite c)%bool; [|split; assumption].
  unfold same_xy. cbn [meanx meany ssqdmx ssqdmy]. rewrite Hm, Hs. split; reflexivity.
Qed.

Lemma observe_constant_settled (c : float) (st : welford) :
  PrimFloat.is_finite c = true ->
  st = welford0 \/ settled c st ->
  settled c (observe st (c, c)).
Proof.
  intros Hfin Hst. unfold observe. rewrite Hfin. cbn [andb].
  unfold settled. cbn [meanx ssqdmx].
  set (y := (1 / float_of_Z (nobs st + 1))%float).
  assert (Hzero : zeroish c -> zeroish (meanx st) -> zeroish (ssqdmx st) ->
                  (ssqdmx st + (c - (meanx st + y * (c - meanx st))) * (c - meanx st))%float
                  = nan
                  \/ (zeroish (ssqdmx st
                                + (c - (meanx st + y * (c - meanx st))) * (c - meanx st))%float
                      /\ ((meanx st + y * (c - meanx st))%float = c
                          \/ (zeroish c /\ zeroish (meanx st + y * (c - meanx st))%float)))).
  { intros Hc Hm Hs.
    assert (Hdx : zeroish (c - meanx st)%float).
    { destruct Hc as [-> | ->], Hm as [-> | ->]; zero_or_minus_zero. }
    destruct (mul_zeroish y _ Hdx) as [Hy | Hy].
    - left. rewrite Hy, add_nan_r, sub_nan_r.
      destruct Hdx as [-> | ->], Hs as [-> | ->]; reflexivity.
    - right.
      assert (Hmx : zeroish (meanx st + y * (c - meanx st))%float).
      { destruct Hy as [-> | ->], Hm as [-> | ->]; zero_or_minus_zero. }
      split; [|right; split; assumption].
      destruct Hc as [-> | ->], Hmx as [-> | ->], Hdx as [-> | ->], Hs as [-> | ->];
        zero_or_minus_zero. }
  destruct Hst as [-> | [Hnan | [Hs [Hm | [Hc Hm]]]]].
  - (* the first observation *)
    destruct (finite_cases c Hfin) as [Hc | (s & m & e & Hce)].
    + apply Hzero; [exact Hc|left; reflexivity|left; reflexivity].
    + right. subst y. cbn [nobs meanx ssqdmx welford0].
      change (1 / float_of_Z (0 + 1))%float with 1%float.
      rewrite sub_zero_r, (mul_one_l c s m e Hce), (add_zero_l c s m e Hce),
        (sub_diag c s m e Hce).
      split; [|left; reflexivity].
      destruct (mul_zero_l c s m e Hce) as [-> | ->]; zero_or_minus_zero.
  - left. rewrite Hnan. apply add_nan_l.
  - destruct (finite_cases c Hfin) as [Hc | (s & m & e & Hce)].
    + apply Hzero; [exact Hc|rewrite Hm; exact Hc|exact Hs].
    + rewrite Hm, (sub_diag c s m e Hce).
      destruct (mul_zeroish y 0%float (or_introl eq_refl)) as [Hy | Hy].
      * left. rewrite Hy, add_nan_r, sub_nan_r.
        destruct Hs as [-> | ->]; reflexivity.
      * right. rewrite (add_zeroish_r c s m e Hce _ Hy), (sub_diag c s m e Hce).
        split; [|left; reflexivity].
        destruct Hs as [-> | ->]; zero_or_minus_zero.
  - apply Hzero; assumption.
Qed.

Lemma coefficient_settled (c : float) (st : welford) :
  same_xy st -> st = welford0 \/ settled c st -> coefficient st = nan.
Proof.
  intros [_ Hxy] [-> | [Hnan | [Hs _]]]; [reflexivity| |]; unfold coefficient;
    destruct (nobs st <? 1); try reflexivity; rewrite Hxy.
  - rewrite Hnan. cbn. rewrite div_nan_r. reflexivity.
  - destruct Hs as [-> | ->]; reflexivity.
Qed.

Lemma pearson_constant (c : float) (xs : list float) :
  Forall (fun x => PrimFloat.is_finite x = true -> x = c) xs -> pearson xs xs = nan.
Proof.
  intros H. unfold pearson. apply (coefficient_settled c).
  - assert (Hxy : forall st, same_xy st -> same_xy (fold_left observe (combine xs xs) st)).
    { clear H. induction xs as [|x xs IH]; intros st Hst; cbn [combine fold_left];
        [exact Hst|].
      apply IH. apply observe_constant_same_xy. exact Hst. }
    apply Hxy. split; reflexivity.
  - assert (Hset : forall st, st = welford0 \/ settled c st ->
                              let st' := fold_left observe (combine xs xs) st in
                              st' = welford0 \/ settled c st').
    { induction H as [|x xs Hx _ IH]; intros st Hst; cbn [combine fold_left];
        [exact Hst|].
      apply IH. destruct (PrimFloat.is_finite x) eqn:Hfin.
      - right. specialize (Hx eq_refl). subst x.
        apply observe_constant_settled; assumption.
      - unfold observe. rewrite Hfin. exact Hst. }
    apply Hset. left. reflexivity.
Qed.

Lemma traverse_Ok {A B : Type} (f : A -> result B) (l : list A) (m : list B) :
  traverse f l = Ok m -> Forall2 (fun x y => f x = Ok y) l m.
Proof.
  revert m. induction l as [|x l IH]; simpl; intros m H.
  - injection H as <-. constructor.
  - destruct (f x) as [y|e] eqn:Hx; simpl in H; [|discriminate].
    destruct (traverse f l) as [ys|e]; simpl in H; [|discriminate].
    injection H as <-. constructor; [exact Hx|apply IH; reflexivity].
Qed.

Lemma Forall2_nth_Ok {A B : Type} (f : A -> result B) (l : list A) (m : list B)
      (i : nat) (da : A) (db : B) :
  Forall2 (fun x y => f x = Ok y) l m ->
  (i < List.length l)%nat ->
  f (nth i l da) = Ok (nth i m db).
Proof.
  intros H. revert i. induction H as [|x y l m Hxy _ IH]; intros i Hi; simpl in Hi.
  - lia.
  - destruct i as [|i]; simpl; [exact Hxy|]. apply IH. lia.
Qed.

Lemma column_of_one_value
      (g : cell -> result float) (cellrows : list (list cell)) (mat : list (list float))
      (i : nat) (c : float) :
  Forall2 (fun cells floats => traverse g cells = Ok floats) cellrows mat ->
  Forall (fun cells =>
            (i < List.length cells)%nat
            /\ forall f, g (nth i cells NaN) = Ok f -> PrimFloat.is_finite f = true -> f = c)
         cellrows ->
  Forall (fun x => PrimFloat.is_finite x = true -> x = c) (float_column mat i).
Proof.
  intros H. induction H as [|cells floats cellrows mat Hrow _ IH]; intros Hall; simpl.
  - constructor.
  - inversion Hall as [|? ? [Hlen Hcell] Hrest]; subst. constructor.
    + apply Hcell. apply traverse_Ok in Hrow.
      apply (Forall2_nth_Ok g cells floats i NaN nan Hrow Hlen).
    + apply IH. exact Hrest.
Qed.

Lemma correlation_matrix_Ok
      (python_float : string -> option float) (t : DataFrame) (m : list (list float)) :
  correlation_matrix python_float t = Ok m ->
  exists mat,
    traverse (traverse (to_float python_float))
             (map (fun r => map (at_label (columns t) r) (selected_features t)) (rows t))
    = Ok mat
    /\ m = map (map round3) (nancorr (List.length (selected_features t)) mat).
Proof.
  unfold correlation_matrix, getitem_columns.
  destruct (not_in_index (columns t) (selected_features t)); cbn [bind]; [|discriminate].
  unfold corr, to_numpy. cbn [rows columns].
  destruct (traverse (traverse (to_float python_float)) _) as [mat|e];
    cbn [bind]; [|discriminate].
  intros H. injection H as <-. exists mat. split; reflexivity.
Qed.

(** C7, as the code has it: the rounded correlation matrix of a cleaned
    table is symmetric, the entries (i, j) and (j, i) being the same
    value, NaN included; its diagonal is not 1.0 throughout: for a column
    whose finite values are all the same, be there none, one or many (a
    label that is the same in every row, any column of a table of one row
    or of no row), the diagonal entry is NaN. *)
Theorem correlation_matrix_symmetric
        (python_float : string -> option float) (mm t : DataFrame)
        (m : list (list float)) :
  mm_sub mm = Ok t ->
  correlation_matrix python_float t = Ok m ->
  (forall i j, entry m i j = entry m j i)
  /\ (forall i c,
        (i < 8)%nat ->
        Forall (fun r =>
                  forall f,
                    to_float python_float
                             (at_label (columns t) r (nth i (selected_features t) ""))
                    = Ok f ->
                    PrimFloat.is_finite f = true ->
                    f = c)
               (rows t) ->
        entry m i i = nan).
Proof.
  intros Ht Hm. apply correlation_matrix_Ok in Hm. destruct Hm as [mat [Hmat ->]].
  split.
  - intros i j. rewrite !entry_round3, nancorr_symmetric. reflexivity.
  - intros i c Hi Hall. apply mm_sub_Ok in Ht. subst t.
    rewrite entry_round3, entry_nancorr.
    change (List.length (selected_features _)) with 8%nat.
    pose proof Hi as Hlt. apply Nat.ltb_lt in Hi. rewrite Hi. cbn [andb].
    rewrite Nat.max_id, Nat.min_id, (pearson_constant c); [reflexivity|].
    apply traverse_Ok in Hmat.
    apply (column_of_one_value _ _ _ i c Hmat).
    apply Forall_forall. intros cells Hcells.
    apply in_map_iff in Hcells. destruct Hcells as [r [<- Hr]].
    rewrite length_map. split; [exact Hlt|].
    intros f Hf. rewrite Forall_forall in Hall. apply (Hall r Hr f).
    rewrite <- Hf. f_equal.
    symmetry. exact (map_nth (at_label cleaned_columns r) _ "" i).
Qed.

Lemma correlation_matrix_symmetric_witness :
  (forall i j, entry nit_heatmap i j = entry nit_heatmap j i)
  /\ (forall i c,
        (i < 8)%nat ->
        Forall (fun r =>
                  forall f,
                    to_float no_float
                             (at_label (columns nit_cleaned) r
                                       (nth i (selected_features nit_cleaned) ""))
                    = Ok f ->
                    PrimFloat.is_finite f = true ->
                    f = c)
               (rows nit_cleaned) ->
        entry nit_heatmap i i = nan).
Proof.
  apply (correlation_matrix_symmetric no_float nit_example nit_cleaned nit_heatmap).
  - vm_compute. reflexivity.
  - vm_compute. reflexivity.
Defined.

(** C7, as the spec has it, fails: in a cleaned table of two teams that
    both missed the tournament the label column does not vary, and its
    diagonal entry is NaN, not 1.0. *)
Lemma constant_label_diagonal_is_nan :
  mm_sub nit_example = Ok nit_cleaned
  /\ correlation_matrix no_float nit_cleaned = Ok nit_heatmap
  /\ entry nit_heatmap 7 7 = nan
  /\ PrimFloat.eqb (entry nit_heatmap 7 7) 1%float = false
  /\ entry nit_heatmap 0 0 = 1%float.
Proof.
  repeat split; vm_compute; reflexivity.
Qed.

(** * More of the script

    Properties of the cleaning, of the plots and of the whole run that the
    code shows beyond the ones above. *)

(** ** The cleaning as one equation *)

Lemma traverse_total {A B : Type} (f : A -> result B) (l : list A) :
  Forall (fun x => exists y, f x = Ok y) l -> exists m, traverse f l = Ok m.
Proof.
  induction 1 as [|x l [y Hy] _ [m IH]]; simpl.
  - exists []. reflexivity.
  - rewrite Hy, IH. exists (y :: m). reflexivity.
Qed.

Lemma traverse_Raise {A B : Type} (f : A -> result B) (l : list A) (e : exn) :
  traverse f l = Raise e -> Exists (fun x => f x = Raise e) l.
Proof.
  induction l as [|x l IH]; simpl; [discriminate|].
  destruct (f x) as [y|e'] eqn:Hx; cbn [bind].
  - destruct (traverse f l) as [ys|e'']; cbn [bind]; [discriminate|].
    intros H. injection H as ->. right. apply IH. reflexivity.
  - intros H. injection H as ->. left. exact Hx.
Qed.

Lemma gt_int_Raise (k : Z) (x : cell) (e : exn) :
  gt_int k x = Raise e -> e = TypeError /\ exists s, x = CStr s.
Proof.
  destruct x as [z|f|b|s]; simpl; intros H; try discriminate.
  injection H as <-. split; [reflexivity|]. exists s. reflexivity.
Qed.

Lemma gt_int_Ok (k : Z) (x : cell) (b : bool) :
  gt_int k x = Ok b -> forall s, x <> CStr s.
Proof.
  destruct x as [z|f|b'|s']; simpl; intros H s; discriminate.
Qed.

Lemma mm_sub_loc_incl (mm t : DataFrame) :
  mm_sub_loc mm = Ok t -> incl loc_columns (columns mm).
Proof.
  unfold mm_sub_loc. returned (getitem mm "Tournament Winner?") winner Hwinner.
  unfold loc, getitem_columns.
  destruct (not_in_index (columns mm) loc_columns) eqn:Hmiss; cbn [bind]; [|discriminate].
  intros _. apply not_in_index_nil. exact Hmiss.
Qed.

Lemma mm_sub_labelled_incl (mm t : DataFrame) :
  mm_sub_labelled mm = Ok t -> incl loc_columns (columns mm).
Proof.
  unfold mm_sub_labelled, mm_sub_renamed, mm_sub_played, mm_sub_kept.
  destruct (mm_sub_loc mm) as [t1|e] eqn:H1; cbn [bind]; [|discriminate].
  intros _. apply (mm_sub_loc_incl mm t1 H1).
Qed.

(** With the eleven columns in place, the table of line 41. *)
Lemma mm_sub_labelled_eq (mm : DataFrame) :
  incl loc_columns (columns mm) ->
  mm_sub_labelled mm
  = Ok {| columns := cleaned_columns;
          rows := map (labelled_row (columns mm))
                      (filter (fun r => (not_winner (columns mm) r
                                         && played (columns mm) r)%bool)
                              (rows mm)) |}.
Proof.
  intros H. destruct (mm_sub_labelled_total mm H) as [t Ht].
  rewrite Ht. f_equal. apply mm_sub_labelled_Ok. exact Ht.
Qed.

(** With the eleven columns in place, the cleaning is the season test on
    the rows that passed the first two tests. *)
Lemma mm_sub_eq (mm : DataFrame) :
  incl loc_columns (columns mm) ->
  mm_sub mm
  = (recent <- traverse (gt_int 2006)
                        (map (fun raw => at_label (columns mm) raw "Season")
                             (filter (fun r => (not_winner (columns mm) r
                                                && played (columns mm) r)%bool)
                                     (rows mm))) ;;
     Ok {| columns := cleaned_columns;
           rows := compress recent
                            (map (labelled_row (columns mm))
                                 (filter (fun r => (not_winner (columns mm) r
                                                    && played (columns mm) r)%bool)
                                         (rows mm))) |}).
Proof.
  intros H. unfold mm_sub. rewrite (mm_sub_labelled_eq mm H). cbn [bind].
  unfold getitem, column_values. cbn [columns].
  change (get_loc "Season" cleaned_columns) with (Some 0%nat). cbn [bind rows].
  rewrite map_map. reflexivity.
Qed.

Lemma mm_sub_incl (mm t : DataFrame) :
  mm_sub mm = Ok t -> incl loc_columns (columns mm).
Proof.
  unfold mm_sub. returned (mm_sub_labelled mm) t0 H0.
  intros _. apply (mm_sub_labelled_incl mm t0 H0).
Qed.

(** X1: the cleaned table has the ten columns Season, School, AdjOE,
    AdjDE, eFGPct, TOPct, AdjTempo, PGOR, PGDR and March Madness?, in
    this order, ten cells in every row, no column "Tournament Winner?",
    and no more rows than the raw table. *)
Theorem cleaned_table_shape (mm t : DataFrame) :
  mm_sub mm = Ok t ->
  columns t = ["Season"; "School"; "AdjOE"; "AdjDE"; "eFGPct"; "TOPct"; "AdjTempo";
               "PGOR"; "PGDR"; "March Madness?"]
  /\ Forall (fun r => List.length r = 10%nat) (rows t)
  /\ ~ In "Tournament Winner?" (columns t)
  /\ (List.length (rows t) <= List.length (rows mm))%nat.
Proof.
  intros H. apply mm_sub_Ok in H. subst t. cbn [columns rows].
  split; [reflexivity|]. split; [|split].
  - apply Forall_forall. intros r Hr. apply in_map_iff in Hr.
    destruct Hr as [raw [<- _]]. reflexivity.
  - apply get_loc_None. reflexivity.
  - rewrite length_map. apply filter_length_le.
Qed.

Lemma cleaned_table_shape_witness :
  columns cleaned_example
  = ["Season"; "School"; "AdjOE"; "AdjDE"; "eFGPct"; "TOPct"; "AdjTempo";
     "PGOR"; "PGDR"; "March Madness?"]
  /\ Forall (fun r => List.length r = 10%nat) (rows cleaned_example)
  /\ ~ In "Tournament Winner?" (columns cleaned_example)
  /\ (List.length (rows cleaned_example) <= List.length (rows raw_example))%nat.
Proof.
  apply (cleaned_table_shape raw_example cleaned_example). vm_compute. reflexivity.
Defined.

(** X2: the renaming and the projection carry the values over: in every
    cleaned row School, AdjOE and AdjDE hold the raw row's
    "Mapped ESPN Team Name", "Adjusted Offensive Efficiency" and
    "Adjusted Defensive Efficiency", and Season, eFGPct, TOPct, AdjTempo,
    PGOR and PGDR hold the raw cells of the same name. *)
Theorem cleaned_columns_hold_raw_values (mm t : DataFrame) :
  mm_sub mm = Ok t ->
  Forall2 (fun raw r =>
             at_label (columns t) r "School"
             = at_label (columns mm) raw "Mapped ESPN Team Name"
             /\ at_label (columns t) r "AdjOE"
                = at_label (columns mm) raw "Adjusted Offensive Efficiency"
             /\ at_label (columns t) r "AdjDE"
                = at_label (columns mm) raw "Adjusted Defensive Efficiency"
             /\ forall c,
                  In c ["Season"; "eFGPct"; "TOPct"; "AdjTempo"; "PGOR"; "PGDR"] ->
                  at_label (columns t) r c = at_label (columns mm) raw c)
          (filter (retained (columns mm)) (rows mm)) (rows t).
Proof.
  intros H. apply mm_sub_Ok in H. subst t. cbn [columns rows].
  apply Forall2_map_self. intros raw _.
  repeat split; try reflexivity.
  intros c Hc. cbn [In] in Hc.
  destruct Hc as [<-|[<-|[<-|[<-|[<-|[<-|[]]]]]]]; reflexivity.
Qed.

Lemma cleaned_columns_hold_raw_values_witness :
  Forall2 (fun raw r =>
             at_label (columns cleaned_example) r "School"
             = at_label (columns raw_example) raw "Mapped ESPN Team Name"
             /\ at_label (columns cleaned_example) r "AdjOE"
                = at_label (columns raw_example) raw "Adjusted Offensive Efficiency"
             /\ at_label (columns cleaned_example) r "AdjDE"
                = at_label (columns raw_example) raw "Adjusted Defensive Efficiency"
             /\ forall c,
                  In c ["Season"; "eFGPct"; "TOPct"; "AdjTempo"; "PGOR"; "PGDR"] ->
                  at_label (columns cleaned_example) r c
                  = at_label (columns raw_example) raw c)
          (filter (retained (columns raw_example)) (rows raw_example))
          (rows cleaned_example).
Proof.
  apply (cleaned_columns_hold_raw_values raw_example cleaned_example).
  vm_compute. reflexivity.
Defined.

Lemma Forall2_exists_r {A B : Type} (P : A -> B -> Prop) (l : list A) (m : list B) :
  Forall2 P l m -> Forall (fun x => exists y, P x y) l.
Proof.
  induction 1 as [|x y l m Hxy _ IH]; constructor; [exists y; exact Hxy|exact IH].
Qed.

(** X3: the cleaning returns a table exactly when the raw table has the
    eleven columns that line 26 names and no row that passes the first
    two tests holds a str as its Season. *)
Theorem cleaning_succeeds_iff (mm : DataFrame) :
  (exists t, mm_sub mm = Ok t) <->
  incl loc_columns (columns mm)
  /\ Forall (fun raw =>
               (not_winner (columns mm) raw && played (columns mm) raw)%bool = true ->
               forall s, at_label (columns mm) raw "Season" <> CStr s)
            (rows mm).
Proof.
  split.
  - intros [t Ht]. pose proof (mm_sub_incl mm t Ht) as Hincl. split; [exact Hincl|].
    rewrite (mm_sub_eq mm Hincl) in Ht.
    destruct (traverse (gt_int 2006) _) as [recent|e] eqn:Hrecent; cbn [bind] in Ht;
      [|discriminate].
    apply traverse_Ok, Forall2_exists_r in Hrecent. rewrite Forall_forall in Hrecent.
    apply Forall_forall. intros raw Hraw Hq.
    destruct (Hrecent (at_label (columns mm) raw "Season")) as [b Hb].
    { apply (in_map (fun raw => at_label (columns mm) raw "Season")).
      apply filter_In. split; assumption. }
    exact (gt_int_Ok 2006 _ b Hb).
  - intros [Hincl Hseason]. rewrite (mm_sub_eq mm Hincl).
    destruct (traverse_gt_int_total 2006
                (map (fun raw => at_label (columns mm) raw "Season")
                     (filter (fun r => (not_winner (columns mm) r
                                        && played (columns mm) r)%bool)
                             (rows mm)))) as [recent Hrecent].
    + apply Forall_forall. intros x Hx. apply in_map_iff in Hx.
      destruct Hx as [raw [<- Hraw]]. apply filter_In in Hraw.
      destruct Hraw as [Hraw Hq]. rewrite Forall_forall in Hseason.
      exact (Hseason raw Hraw Hq).
    + rewrite Hrecent. cbn [bind]. eexists. reflexivity.
Qed.

(** X4: when the cleaning raises, it raises a KeyError that names
    required columns the raw table lacks, or, with all eleven columns in
    place, the TypeError of comparing a str Season with 2006, for a row
    that passed the first two tests; it raises nothing else. *)
Theorem cleaning_raises_KeyError_or_TypeError (mm : DataFrame) (e : exn) :
  mm_sub mm = Raise e ->
  (exists ks,
     e = KeyError ks
     /\ ks <> []
     /\ Forall (fun k => In k loc_columns /\ ~ In k (columns mm)) ks)
  \/ (e = TypeError
      /\ incl loc_columns (columns mm)
      /\ exists raw s,
           In raw (rows mm)
           /\ (not_winner (columns mm) raw && played (columns mm) raw)%bool = true
           /\ at_label (columns mm) raw "Season" = CStr s).
Proof.
  intros H. destruct (not_in_index (columns mm) loc_columns) as [|k ks] eqn:Hmiss.
  - right. apply not_in_index_nil in Hmiss. rewrite (mm_sub_eq mm Hmiss) in H.
    destruct (traverse (gt_int 2006) _) as [recent|e'] eqn:Hrecent; cbn [bind] in H;
      [discriminate|].
    injection H as ->. apply traverse_Raise in Hrecent. apply Exists_exists in Hrecent.
    destruct Hrecent as [x [Hx Hraise]]. apply gt_int_Raise in Hraise.
    destruct Hraise as [-> [s ->]]. apply in_map_iff in Hx.
    destruct Hx as [raw [Hs Hraw]]. apply filter_In in Hraw. destruct Hraw as [Hraw Hq].
    split; [reflexivity|]. split; [exact Hmiss|]. exists raw, s. auto.
  - left.
    assert (Hk : In k loc_columns /\ ~ In k (columns mm)).
    { apply not_in_index_spec. rewrite Hmiss. left. reflexivity. }
    destruct (mm_sub_loc_missing mm (ex_intro _ k Hk)) as [ks' [Hraise Hks']].
    exists ks'. split; [|exact Hks'].
    unfold mm_sub, mm_sub_labelled, mm_sub_renamed, mm_sub_played, mm_sub_kept in H.
    rewrite Hraise in H. cbn [bind] in H. injection H as <-. reflexivity.
Qed.

Lemma cleaning_raises_KeyError_or_TypeError_witness :
  (exists ks,
     TypeError = KeyError ks
     /\ ks <> []
     /\ Forall (fun k => In k loc_columns /\ ~ In k (columns str_season_example)) ks)
  \/ (TypeError = TypeError
      /\ incl loc_columns (columns str_season_example)
      /\ exists raw s,
           In raw (rows str_season_example)
           /\ (not_winner (columns str_season_example) raw
               && played (columns str_season_example) raw)%bool = true
           /\ at_label (columns str_season_example) raw "Season" = CStr s).
Proof.
  apply (cleaning_raises_KeyError_or_TypeError str_season_example TypeError).
  vm_compute. reflexivity.
Defined.

(** X5: the zero test of line 32 does not remove missing values: a raw
    row whose eFGPct is NaN, and that passes the other tests, is in the
    cleaned table, its eFGPct still missing. *)
Theorem missing_eFGPct_is_kept (mm t : DataFrame) (raw : list cell) :
  mm_sub mm = Ok t ->
  In raw (rows mm) ->
  at_label (columns mm) raw "Tournament Winner?" = CStr "No" ->
  at_label (columns mm) raw "eFGPct" = NaN ->
  ne_zero (at_label (columns mm) raw "Adjusted Defensive Efficiency") = true ->
  gt_int 2006 (at_label (columns mm) raw "Season") = Ok true ->
  exists r,
    In r (rows t)
    /\ r = labelled_row (columns mm) raw
    /\ isna (at_label (columns t) r "eFGPct") = true.
Proof.
  intros H Hraw Hno Hefg Hade Hseason. apply mm_sub_Ok in H. subst t. cbn [columns rows].
  exists (labelled_row (columns mm) raw). split; [|split; [reflexivity|]].
  - apply in_map. apply filter_In. split; [exact Hraw|].
    apply retained_spec. rewrite Hefg. auto.
  - change (at_label cleaned_columns (labelled_row (columns mm) raw) "eFGPct")
      with (at_label (columns mm) raw "eFGPct").
    rewrite Hefg. reflexivity.
Qed.

Lemma missing_eFGPct_is_kept_witness :
  exists r,
    In r (rows nan_efg_cleaned)
    /\ r = labelled_row (columns nan_efg_example)
                        [CInt 2016; CStr "Juliett"; CFloat 108.5; CFloat 97.75; NaN;
                         CFloat 18.25; CFloat 65.75; CFloat 2.5; CFloat 1.5; CStr "No";
                         CStr "March Madness"]
    /\ isna (at_label (columns nan_efg_cleaned) r "eFGPct") = true.
Proof.
  apply (missing_eFGPct_is_kept nan_efg_example nan_efg_cleaned).
  - vm_compute. reflexivity.
  - right. left. reflexivity.
  - reflexivity.
  - reflexivity.
  - reflexivity.
  - reflexivity.
Defined.

Lemma map_filter_Forall2 {A A' B : Type} (R : A -> A' -> Prop)
      (q : A -> bool) (q' : A' -> bool) (f : A -> B) (f' : A' -> B)
      (l : list A) (l' : list A') :
  Forall2 R l l' ->
  (forall x x', R x x' -> q x = q' x' /\ f x = f' x') ->
  map f (filter q l) = map f' (filter q' l').
Proof.
  intros H HR. induction H as [|x x' l l' Hx _ IH]; simpl; [reflexivity|].
  destruct (HR x x' Hx) as [Hq Hf]. rewrite <- Hq.
  destruct (q x); simpl; rewrite ?Hf, IH; reflexivity.
Qed.

(** X6: the cleaning reads the eleven columns of line 26 and nothing
    else: two raw tables that both have them and agree on them row by
    row, whatever other columns they hold and in whatever order, give the
    same result. *)
Theorem cleaning_reads_only_its_columns (mm mm' : DataFrame) :
  incl loc_columns (columns mm) ->
  incl loc_columns (columns mm') ->
  Forall2 (fun r r' =>
             forall c, In c loc_columns ->
                       at_label (columns mm) r c = at_label (columns mm') r' c)
          (rows mm) (rows mm') ->
  mm_sub mm = mm_sub mm'.
Proof.
  intros H H' Hrows. rewrite (mm_sub_eq mm H), (mm_sub_eq mm' H').
  set (R := fun r r' : list cell =>
              forall c, In c loc_columns ->
                        at_label (columns mm) r c = at_label (columns mm') r' c) in *.
  assert (Hq : forall r r', R r r' ->
                 (not_winner (columns mm) r && played (columns mm) r)%bool
                 = (not_winner (columns mm') r' && played (columns mm') r')%bool).
  { intros r r' Hr. unfold not_winner, played.
    rewrite !(Hr _) by (simpl; tauto). reflexivity. }
  assert (Hseasons :
            map (fun raw => at_label (columns mm) raw "Season")
                (filter (fun r => (not_winner (columns mm) r
                                   && played (columns mm) r)%bool) (rows mm))
            = map (fun raw => at_label (columns mm') raw "Season")
                  (filter (fun r => (not_winner (columns mm') r
                                     && played (columns mm') r)%bool) (rows mm'))).
  { apply (map_filter_Forall2 R); [exact Hrows|].
    intros r r' Hr. split; [apply Hq; exact Hr|]. apply Hr. simpl. tauto. }
  assert (Hcleaned :
            map (labelled_row (columns mm))
                (filter (fun r => (not_winner (columns mm) r
                                   && played (columns mm) r)%bool) (rows mm))
            = map (labelled_row (columns mm'))
                  (filter (fun r => (not_winner (columns mm') r
                                     && played (columns mm') r)%bool) (rows mm'))).
  { apply (map_filter_Forall2 R); [exact Hrows|].
    intros r r' Hr. split; [apply Hq; exact Hr|]. unfold labelled_row.
    rewrite !(Hr _) by (simpl; tauto). reflexivity. }
  rewrite Hseasons, Hcleaned. reflexivity.
Qed.

Lemma cleaning_reads_only_its_columns_witness :
  mm_sub raw_example = mm_sub reordered_example.
Proof.
  apply (cleaning_reads_only_its_columns raw_example reordered_example).
  - apply not_in_index_nil. reflexivity.
  - apply not_in_index_nil. reflexivity.
  - unfold reordered_example. cbn [rows columns].
    generalize (rows raw_example). intros l. induction l as [|r l IH]; constructor.
    + intros c Hc. cbn [In loc_columns] in Hc.
      destruct Hc as [<-|[<-|[<-|[<-|[<-|[<-|[<-|[<-|[<-|[<-|[<-|[]]]]]]]]]]]];
        reflexivity.
    + exact IH.
Defined.

(** ** More on the missing-values plot *)

(** X7: the derived label is never missing: in the array of the
    missing-values plot the entry of "March Madness?" is 0 in every row,
    also where the raw "Post-Season Tournament" is missing. *)
Theorem label_is_never_missing (mm : DataFrame) (a : list (list Z)) :
  nan_array mm = Ok a ->
  Forall (fun line => nth 9 line 1 = 0) a.
Proof.
  unfold nan_array. returned (mm_sub_labelled mm) t0 E.
  intros H. injection H as <-. rewrite (mm_sub_labelled_Ok mm t0 E), isna_array_labelled.
  apply Forall_forall. intros line Hline. apply in_map_iff in Hline.
  destruct Hline as [r [<- Hr]]. apply in_map_iff in Hr. destruct Hr as [raw [<- _]].
  reflexivity.
Qed.

Lemma label_is_never_missing_witness :
  Forall (fun line => nth 9 line 1 = 0) nan_example.
Proof.
  apply (label_is_never_missing raw_example nan_example). vm_compute. reflexivity.
Defined.

Lemma nth_transpose (k : nat) (a : list (list Z)) (i j : nat) :
  (j < k)%nat -> nth i (nth j (transpose k a) []) 0 = nth j (nth i a []) 0.
Proof.
  intros Hj. unfold transpose. rewrite nth_map_seq.
  apply Nat.ltb_lt in Hj. rewrite Hj. clear Hj.
  revert i. induction a as [|r a IH]; intros [|i]; simpl; try (destruct j; reflexivity).
  apply IH.
Qed.

(** X8: the image of the missing-values plot is the array turned on its
    side: one line per column of the table, ten in all, each with one
    entry per row, the entry of line j at position i being the entry of
    row i at column j; the y ticks are the ten positions and their labels
    the ten column names. *)
Theorem image_is_nan_array_transposed (mm : DataFrame) (a : list (list Z))
        (p : MissingPlot) :
  nan_array mm = Ok a ->
  missing_plot mm = Ok p ->
  List.length (image p) = 10%nat
  /\ Forall (fun line => List.length line = List.length a) (image p)
  /\ (forall i j, (j < 10)%nat -> nth i (nth j (image p) []) 0 = nth j (nth i a []) 0)
  /\ yticks p = seq 0 10
  /\ yticklabels p = cleaned_columns.
Proof.
  unfold nan_array, missing_plot. returned (mm_sub_labelled mm) t0 E.
  intros Ha Hp. injection Ha as <-. injection Hp as <-.
  rewrite (mm_sub_labelled_Ok mm t0 E). cbn [image yticks yticklabels columns].
  change (List.length cleaned_columns) with 10%nat.
  split; [|split; [|split; [|split; reflexivity]]].
  - unfold transpose. rewrite length_map, length_seq. reflexivity.
  - apply Forall_forall. intros line Hline. unfold transpose in Hline.
    apply in_map_iff in Hline. destruct Hline as [j [<- _]].
    rewrite length_map. reflexivity.
  - intros i j Hj. apply nth_transpose. exact Hj.
Qed.

Lemma image_is_nan_array_transposed_witness :
  List.length (image plot_example) = 10%nat
  /\ Forall (fun line => List.length line = List.length nan_example) (image plot_example)
  /\ (forall i j, (j < 10)%nat ->
                  nth i (nth j (image plot_example) []) 0 = nth j (nth i nan_example []) 0)
  /\ yticks plot_example = seq 0 10
  /\ yticklabels plot_example = cleaned_columns.
Proof.
  apply (image_is_nan_array_transposed raw_example nan_example plot_example).
  - vm_compute. reflexivity.
  - vm_compute. reflexivity.
Defined.

(** X9: the missing-values plot is drawn exactly when the raw table has
    the eleven columns: it comes before the season test, so a Season
    that is a str does not stop it. *)
Theorem missing_plot_succeeds_iff (mm : DataFrame) :
  (exists p, missing_plot mm = Ok p) <-> incl loc_columns (columns mm).
Proof.
  split.
  - intros [p Hp]. unfold missing_plot in Hp.
    destruct (mm_sub_labelled mm) as [t0|e] eqn:E; cbn [bind] in Hp; [|discriminate].
    apply (mm_sub_labelled_incl mm t0 E).
  - intros H. unfold missing_plot. rewrite (mm_sub_labelled_eq mm H). cbn [bind].
    eexists. reflexivity.
Qed.

(** ** More on the heatmap *)

Lemma selected_features_incl (t : DataFrame) : incl (selected_features t) (columns t).
Proof.
  intros c Hc. unfold selected_features in Hc. apply filter_In in Hc.
  destruct Hc as [_ Hc]. apply existsb_exists in Hc. destruct Hc as [c' [Hin Heq]].
  apply String.eqb_eq in Heq. subst c'. exact Hin.
Qed.

(** Line 84 on any frame: the guard of line 82 has made the projection
    safe, what is left is the conversion to floats. *)
Lemma correlation_matrix_eq (python_float : string -> option float) (t : DataFrame) :
  correlation_matrix python_float t
  = (mat <- traverse (traverse (to_float python_float))
                     (map (fun r => map (at_label (columns t) r) (selected_features t))
                          (rows t)) ;;
     Ok (map (map round3) (nancorr (List.length (selected_features t)) mat))).
Proof.
  unfold correlation_matrix, getitem_columns.
  rewrite (proj2 (not_in_index_nil _ _) (selected_features_incl t)). cbn [bind].
  unfold corr, to_numpy. cbn [rows columns].
  destruct (traverse (traverse (to_float python_float)) _); reflexivity.
Qed.

Lemma to_float_Ok_iff (python_float : string -> option float) (x : cell) :
  (exists f, to_float python_float x = Ok f) <->
  (forall s, x = CStr s -> python_float s <> None).
Proof.
  destruct x as [z|f|b|s]; simpl.
  - split; [intros _ s H; discriminate|intros _; eexists; reflexivity].
  - split; [intros _ s H; discriminate|intros _; eexists; reflexivity].
  - split; [intros _ s H; discriminate|intros _; eexists; reflexivity].
  - destruct (python_float s) as [f|] eqn:E.
    + split; [|intros _; eexists; reflexivity].
      intros _ s' H. injection H as <-. rewrite E. discriminate.
    + split; [intros [f H]; discriminate|].
      intros H. exfalso. apply (H s eq_refl). exact E.
Qed.

Lemma to_float_Raise (python_float : string -> option float) (x : cell) (e : exn) :
  to_float python_float x = Raise e -> e = ValueError.
Proof.
  destruct x as [z|f|b|s]; simpl; try discriminate.
  destruct (python_float s); [discriminate|]. intros H. injection H as <-. reflexivity.
Qed.

(** X10: the guard of line 82 makes line 84 safe on any frame: the
    selected features are columns of the frame, so projecting to them
    raises no KeyError, and keeps every row. *)
Theorem selected_features_are_columns (t : DataFrame) :
  incl (selected_features t) (columns t)
  /\ exists sub,
       getitem_columns t (selected_features t) = Ok sub
       /\ columns sub = selected_features t
       /\ List.length (rows sub) = List.length (rows t).
Proof.
  split; [apply selected_features_incl|].
  unfold getitem_columns.
  rewrite (proj2 (not_in_index_nil _ _) (selected_features_incl t)).
  eexists. split; [reflexivity|]. split; [reflexivity|]. cbn [rows].
  apply length_map.
Qed.

(** X11: on the cleaned table the guard of line 82 drops nothing, and
    the correlation matrix has eight rows of eight entries, one per
    feature, as the heatmap's eight x and y labels need. *)
Theorem heatmap_is_8_by_8
        (python_float : string -> option float) (mm t : DataFrame)
        (m : list (list float)) :
  mm_sub mm = Ok t ->
  correlation_matrix python_float t = Ok m ->
  selected_features t
  = ["eFGPct"; "TOPct"; "AdjTempo"; "AdjOE"; "AdjDE"; "PGOR"; "PGDR"; "March Madness?"]
  /\ List.length m = 8%nat
  /\ Forall (fun line => List.length line = 8%nat) m.
Proof.
  intros Ht Hm. rewrite correlation_matrix_eq in Hm.
  destruct (traverse (traverse (to_float python_float)) _) as [mat|e]; cbn [bind] in Hm;
    [|discriminate].
  injection Hm as <-. apply mm_sub_Ok in Ht. subst t.
  change (selected_features _)
    with ["eFGPct"; "TOPct"; "AdjTempo"; "AdjOE"; "AdjDE"; "PGOR"; "PGDR";
          "March Madness?"].
  split; [reflexivity|]. unfold nancorr. cbn [List.length].
  split.
  - rewrite !length_map, length_seq. reflexivity.
  - apply Forall_forall. intros line Hline. apply in_map_iff in Hline.
    destruct Hline as [line' [<- Hline']]. apply in_map_iff in Hline'.
    destruct Hline' as [i [<- _]]. rewrite !length_map, length_seq. reflexivity.
Qed.

Lemma heatmap_is_8_by_8_witness :
  selected_features nit_cleaned
  = ["eFGPct"; "TOPct"; "AdjTempo"; "AdjOE"; "AdjDE"; "PGOR"; "PGDR"; "March Madness?"]
  /\ List.length nit_heatmap = 8%nat
  /\ Forall (fun line => List.length line = 8%nat) nit_heatmap.
Proof.
  apply (heatmap_is_8_by_8 no_float nit_example nit_cleaned nit_heatmap).
  - vm_compute. reflexivity.
  - vm_compute. reflexivity.
Defined.

Lemma correlation_matrix_total (python_float : string -> option float) (t : DataFrame) :
  Forall (fun r =>
            forall c s, In c (selected_features t) ->
                        at_label (columns t) r c = CStr s -> python_float s <> None)
         (rows t) ->
  exists m, correlation_matrix python_float t = Ok m.
Proof.
  intros H. rewrite correlation_matrix_eq.
  destruct (traverse_total (traverse (to_float python_float))
              (map (fun r => map (at_label (columns t) r) (selected_features t))
                   (rows t))) as [mat Hmat].
  - apply Forall_forall. intros cells Hcells. apply in_map_iff in Hcells.
    destruct Hcells as [r [<- Hr]]. apply traverse_total.
    apply Forall_forall. intros x Hx. apply in_map_iff in Hx.
    destruct Hx as [c [<- Hc]]. apply to_float_Ok_iff. intros s Hs.
    rewrite Forall_forall in H. exact (H r Hr c s Hc Hs).
  - rewrite Hmat. cbn [bind]. eexists. reflexivity.
Qed.

(** X12: on any frame the correlation is computed exactly when every
    str in a selected column spells a number; when it is not computed,
    what is raised is a ValueError. *)
Theorem correlation_needs_numbers (python_float : string -> option float) (t : DataFrame) :
  ((exists m, correlation_matrix python_float t = Ok m) <->
   Forall (fun r =>
             forall c s, In c (selected_features t) ->
                         at_label (columns t) r c = CStr s -> python_float s <> None)
          (rows t))
  /\ forall e, correlation_matrix python_float t = Raise e -> e = ValueError.
Proof.
  split; [split|].
  - intros [m Hm]. rewrite correlation_matrix_eq in Hm.
    destruct (traverse (traverse (to_float python_float)) _) as [mat|e] eqn:Hmat;
      cbn [bind] in Hm; [|discriminate].
    apply traverse_Ok, Forall2_exists_r in Hmat. rewrite Forall_forall in Hmat.
    apply Forall_forall. intros r Hr c s Hc Hs.
    destruct (Hmat (map (at_label (columns t) r) (selected_features t))) as [floats Hrow].
    { apply (in_map (fun r => map (at_label (columns t) r) (selected_features t))).
      exact Hr. }
    apply traverse_Ok, Forall2_exists_r in Hrow. rewrite Forall_forall in Hrow.
    apply (proj1 (to_float_Ok_iff python_float (at_label (columns t) r c)));
      [|exact Hs].
    apply Hrow. apply (in_map (at_label (columns t) r)). exact Hc.
  - apply correlation_matrix_total.
  - intros e He. rewrite correlation_matrix_eq in He.
    destruct (traverse (traverse (to_float python_float)) _) as [mat|e'] eqn:Hmat;
      cbn [bind] in He; [discriminate|].
    injection He as ->. apply traverse_Raise, Exists_exists in Hmat.
    destruct Hmat as [cells [_ Hcells]].
    apply traverse_Raise, Exists_exists in Hcells.
    destruct Hcells as [x [_ Hx]]. apply (to_float_Raise python_float x e Hx).
Qed.

(** ** The scatter plot and the whole run *)

(** The scatter plot of a frame that has the ten cleaned columns. *)
Lemma fig_scatter_cleaned (rs : list (list cell)) (x_sc y_sc : string) :
  In x_sc opts -> In y_sc opts ->
  fig_scatter {| columns := cleaned_columns; rows := rs |} x_sc y_sc
  = Ok {| scatter_x := map (fun r => at_label cleaned_columns r x_sc) rs;
          scatter_y := map (fun r => at_label cleaned_columns r y_sc) rs;
          scatter_color :=
            map (fun r => qualification (at_label cleaned_columns r "March Madness?")) rs;
          scatter_hover :=
            map (fun r => [at_label cleaned_columns r "Season";
                           at_label cleaned_columns r "School"]) rs;
          scatter_title := x_sc ++ " vs " ++ y_sc |}.
Proof.
  intros Hx Hy. unfold fig_scatter, getitem, column_values. cbn [columns rows].
  change (get_loc "March Madness?" cleaned_columns) with (Some 9%nat). cbn [bind].
  rewrite map_map. cbn [In opts] in Hx, Hy.
  destruct Hx as [<-|[<-|[<-|[<-|[<-|[<-|[<-|[<-|[]]]]]]]]];
    destruct Hy as [<-|[<-|[<-|[<-|[<-|[<-|[<-|[<-|[]]]]]]]]]; reflexivity.
Qed.

Lemma fig_hist_cleaned (rs : list (list cell)) (plot_col : string) :
  In plot_col opts ->
  fig_hist {| columns := cleaned_columns; rows := rs |} plot_col
  = Ok {| hist_x := map (fun r => at_label cleaned_columns r plot_col) rs;
          hist_nbins := 30;
          hist_title := "Histogram of " ++ plot_col |}.
Proof.
  intros H. cbn [In opts] in H.
  destruct H as [<-|[<-|[<-|[<-|[<-|[<-|[<-|[<-|[]]]]]]]]]; reflexivity.
Qed.

(** X13: for every choice of the two axes among the eight options the
    scatter plot has one point per row of the cleaned table: its x and y
    are the two chosen columns, its hover data the Season and the School
    of the row, and its title names the two columns. *)
Theorem scatter_of_selected_columns (mm t : DataFrame) (x_sc y_sc : string) :
  mm_sub mm = Ok t ->
  In x_sc opts ->
  In y_sc opts ->
  exists fig,
    fig_scatter t x_sc y_sc = Ok fig
    /\ scatter_x fig = map (fun r => at_label (columns t) r x_sc) (rows t)
    /\ scatter_y fig = map (fun r => at_label (columns t) r y_sc) (rows t)
    /\ scatter_hover fig
       = map (fun r => [at_label (columns t) r "Season"; at_label (columns t) r "School"])
             (rows t)
    /\ List.length (scatter_color fig) = List.length (rows t)
    /\ scatter_title fig = x_sc ++ " vs " ++ y_sc.
Proof.
  intros H Hx Hy. apply mm_sub_Ok in H. subst t.
  rewrite (fig_scatter_cleaned _ x_sc y_sc Hx Hy).
  eexists. split; [reflexivity|]. cbn [scatter_x scatter_y scatter_hover scatter_color
                                        scatter_title columns rows].
  repeat split. apply length_map.
Qed.

Lemma scatter_of_selected_columns_witness :
  exists fig,
    fig_scatter cleaned_example "AdjOE" "AdjDE" = Ok fig
    /\ scatter_x fig
       = map (fun r => at_label (columns cleaned_example) r "AdjOE") (rows cleaned_example)
    /\ scatter_y fig
       = map (fun r => at_label (columns cleaned_example) r "AdjDE") (rows cleaned_example)
    /\ scatter_hover fig
       = map (fun r => [at_label (columns cleaned_example) r "Season";
                        at_label (columns cleaned_example) r "School"])
             (rows cleaned_example)
    /\ List.length (scatter_color fig) = List.length (rows cleaned_example)
    /\ scatter_title fig = "AdjOE" ++ " vs " ++ "AdjDE".
Proof.
  apply (scatter_of_selected_columns raw_example cleaned_example "AdjOE" "AdjDE").
  - vm_compute. reflexivity.
  - simpl. tauto.
  - simpl. tauto.
Defined.

(** X14: every point of the scatter plot has one of the two colour
    categories, never a missing one: "Made NCAA Tournament" when the raw
    row's "Post-Season Tournament" is the string "March Madness" and
    "Did Not Qualify" for any other value. *)
Theorem scatter_colours (mm t : DataFrame) (x_sc y_sc : string) (fig : Scatter) :
  mm_sub mm = Ok t ->
  fig_scatter t x_sc y_sc = Ok fig ->
  Forall2 (fun raw colour =>
             (at_label (columns mm) raw "Post-Season Tournament" = CStr "March Madness" ->
              colour = CStr "Made NCAA Tournament")
             /\ (at_label (columns mm) raw "Post-Season Tournament" <> CStr "March Madness" ->
                 colour = CStr "Did Not Qualify"))
          (filter (retained (columns mm)) (rows mm)) (scatter_color fig).
Proof.
  intros H Hfig. apply mm_sub_Ok in H. subst t.
  unfold fig_scatter, getitem, column_values in Hfig. cbn [columns rows] in Hfig.
  change (get_loc "March Madness?" cleaned_columns) with (Some 9%nat) in Hfig.
  cbn [bind] in Hfig.
  destruct (get_loc x_sc cleaned_columns) as [i|]; [|discriminate].
  destruct (get_loc y_sc cleaned_columns) as [j|]; [|discriminate].
  unfold getitem_columns in Hfig. cbn [columns] in Hfig.
  change (not_in_index cleaned_columns ["Season"; "School"]) with (@nil string) in Hfig.
  cbn [bind] in Hfig. injection Hfig as <-. cbn [scatter_color].
  rewrite !map_map. apply Forall2_map_self. intros raw _.
  change (iat (labelled_row (columns mm) raw) 9)
    with (march_madness (at_label (columns mm) raw "Post-Season Tournament")).
  unfold march_madness.
  destruct (eq_str "March Madness" (at_label (columns mm) raw "Post-Season Tournament"))
    eqn:E.
  - split; [reflexivity|]. apply eq_str_spec in E. intros Hne. contradiction.
  - split; [|reflexivity]. intros Heq. apply eq_str_spec in Heq. congruence.
Qed.

Lemma scatter_colours_witness :
  Forall2 (fun raw colour =>
             (at_label (columns raw_example) raw "Post-Season Tournament"
              = CStr "March Madness" ->
              colour = CStr "Made NCAA Tournament")
             /\ (at_label (columns raw_example) raw "Post-Season Tournament"
                 <> CStr "March Madness" ->
                 colour = CStr "Did Not Qualify"))
          (filter (retained (columns raw_example)) (rows raw_example))
          (scatter_color scatter_example).
Proof.
  apply (scatter_colours raw_example cleaned_example "AdjOE" "AdjDE" scatter_example).
  - vm_compute. reflexivity.
  - vm_compute. reflexivity.
Defined.

(** X15: when the filters leave no row, the views are still built and
    are empty: the correlation matrix is eight by eight and NaN
    throughout, the histogram has no value and the scatter plot no
    point. *)
Theorem empty_cleaned_table_still_plots
        (python_float : string -> option float) (mm t : DataFrame) (sel : Selection) :
  mm_sub mm = Ok t ->
  rows t = [] ->
  In (plot_col sel) opts ->
  In (x_sc sel) opts ->
  In (y_sc sel) opts ->
  correlation_matrix python_float t = Ok (repeat (repeat nan 8) 8)
  /\ fig_hist t (plot_col sel)
     = Ok {| hist_x := []; hist_nbins := 30;
             hist_title := "Histogram of " ++ plot_col sel |}
  /\ fig_scatter t (x_sc sel) (y_sc sel)
     = Ok {| scatter_x := []; scatter_y := []; scatter_color := []; scatter_hover := [];
             scatter_title := x_sc sel ++ " vs " ++ y_sc sel |}.
Proof.
  intros H Hrows Hp Hx Hy. apply mm_sub_Ok in H.
  assert (Ht : t = {| columns := cleaned_columns; rows := [] |}).
  { rewrite H in Hrows |- *. cbn [rows] in Hrows. rewrite Hrows. reflexivity. }
  clear H Hrows. subst t. split; [|split].
  - rewrite correlation_matrix_eq. reflexivity.
  - apply (fig_hist_cleaned [] _ Hp).
  - apply (fig_scatter_cleaned [] _ _ Hx Hy).
Qed.

Lemma empty_cleaned_table_still_plots_witness :
  correlation_matrix no_float old_cleaned = Ok (repeat (repeat nan 8) 8)
  /\ fig_hist old_cleaned (plot_col selection_example)
     = Ok {| hist_x := []; hist_nbins := 30;
             hist_title := "Histogram of " ++ plot_col selection_example |}
  /\ fig_scatter old_cleaned (x_sc selection_example) (y_sc selection_example)
     = Ok {| scatter_x := []; scatter_y := []; scatter_color := []; scatter_hover := [];
             scatter_title := x_sc selection_example ++ " vs " ++ y_sc selection_example |}.
Proof.
  apply (empty_cleaned_table_still_plots no_float old_example old_cleaned
           selection_example).
  - vm_compute. reflexivity.
  - reflexivity.
  - simpl. tauto.
  - simpl. tauto.
  - simpl. tauto.
Defined.

(** X16: the script runs to its end: on a raw table that has the eleven
    columns and holds no str in Season and in the seven statistics, and
    for dropdown values among the eight options, a run returns its four
    views and raises nothing. *)
Theorem app_returns_a_page
        (python_float : string -> option float) (mm : DataFrame) (sel : Selection) :
  incl loc_columns (columns mm) ->
  Forall (fun raw =>
            forall c s,
              In c ["Season"; "Adjusted Offensive Efficiency";
                    "Adjusted Defensive Efficiency"; "eFGPct"; "TOPct"; "AdjTempo";
                    "PGOR"; "PGDR"] ->
              at_label (columns mm) raw c <> CStr s)
         (rows mm) ->
  In (plot_col sel) opts ->
  In (x_sc sel) opts ->
  In (y_sc sel) opts ->
  exists page, app python_float mm sel = Ok page.
Proof.
  intros Hincl Hnum Hp Hx Hy. unfold app, missing_plot.
  rewrite (mm_sub_labelled_eq mm Hincl). cbn [bind].
  destruct (mm_sub_total mm Hincl) as [t Ht].
  { apply Forall_forall. intros raw Hraw s. rewrite Forall_forall in Hnum.
    apply (Hnum raw Hraw). simpl. tauto. }
  rewrite Ht. cbn [bind]. pose proof (mm_sub_Ok mm t Ht) as Heq.
  destruct (correlation_matrix_total python_float t) as [m Hm].
  { rewrite Heq. cbn [rows columns]. apply Forall_forall. intros r Hr c s Hc Hs.
    apply in_map_iff in Hr. destruct Hr as [raw [<- Hraw]].
    apply filter_In in Hraw. destruct Hraw as [Hraw _].
    rewrite Forall_forall in Hnum. exfalso.
    change (selected_features _)
      with ["eFGPct"; "TOPct"; "AdjTempo"; "AdjOE"; "AdjDE"; "PGOR"; "PGDR";
            "March Madness?"] in Hc.
    cbn [In] in Hc.
    destruct Hc as [<-|[<-|[<-|[<-|[<-|[<-|[<-|[<-|[]]]]]]]]];
      try (revert Hs; apply (Hnum raw Hraw); simpl; tauto).
    discriminate Hs. }
  rewrite Hm. cbn [bind]. rewrite Heq.
  rewrite (fig_hist_cleaned _ _ Hp). cbn [bind].
  rewrite (fig_scatter_cleaned _ _ _ Hx Hy). cbn [bind].
  eexists. reflexivity.
Qed.

Lemma app_returns_a_page_witness :
  exists page, app no_float raw_example selection_example = Ok page.
Proof.
  apply (app_returns_a_page no_float raw_example selection_example).
  - apply not_in_index_nil. reflexivity.
  - repeat constructor;
      intros c s Hc; cbn [In] in Hc;
      destruct Hc as [<-|[<-|[<-|[<-|[<-|[<-|[<-|[<-|[]]]]]]]]]; discriminate.
  - simpl. tauto.
  - simpl. tauto.
  - simpl. tauto.
Defined.

(** X17: the cleaning drops nothing but what its three tests drop: every
    raw row whose "Tournament Winner?" is "No", whose eFGPct and
    defensive efficiency are not 0 and whose Season is greater than 2006
    gives a row of the cleaned table, which so has as many rows as the
    raw table has such rows; an integer Season passes from 2007 on. *)
Theorem cleaning_keeps_every_passing_row (mm t : DataFrame) :
  mm_sub mm = Ok t ->
  (forall raw,
     In raw (rows mm) ->
     at_label (columns mm) raw "Tournament Winner?" = CStr "No" ->
     ne_zero (at_label (columns mm) raw "eFGPct") = true ->
     ne_zero (at_label (columns mm) raw "Adjusted Defensive Efficiency") = true ->
     gt_int 2006 (at_label (columns mm) raw "Season") = Ok true ->
     In (labelled_row (columns mm) raw) (rows t))
  /\ List.length (rows t) = List.length (filter (retained (columns mm)) (rows mm))
  /\ forall z, gt_int 2006 (CInt z) = Ok true <-> 2007 <= z.
Proof.
  intros H. apply mm_sub_Ok in H. subst t. cbn [rows]. split; [|split].
  - intros raw Hraw Hno Hefg Hade Hseason. apply in_map. apply filter_In.
    split; [exact Hraw|]. apply retained_spec. auto.
  - apply length_map.
  - intros z. simpl. split.
    + intros Hz. injection Hz as Hz. apply Z.ltb_lt in Hz. lia.
    + intros Hz. f_equal. apply Z.ltb_lt. lia.
Qed.

Lemma cleaning_keeps_every_passing_row_witness :
  (forall raw,
     In raw (rows raw_example) ->
     at_label (columns raw_example) raw "Tournament Winner?" = CStr "No" ->
     ne_zero (at_label (columns raw_example) raw "eFGPct") = true ->
     ne_zero (at_label (columns raw_example) raw "Adjusted Defensive Efficiency") = true ->
     gt_int 2006 (at_label (columns raw_example) raw "Season") = Ok true ->
     In (labelled_row (columns raw_example) raw) (rows cleaned_example))
  /\ List.length (rows cleaned_example)
     = List.length (filter (retained (columns raw_example)) (rows raw_example))
  /\ forall z, gt_int 2006 (CInt z) = Ok true <-> 2007 <= z.
Proof.
  apply (cleaning_keeps_every_passing_row raw_example cleaned_example).
  vm_compute. reflexivity.
Defined.
